(** * Neuraxle-TensorFlow: the TensorFlow 2 step and its checkpoint saver

    A shallow embedding of [neuraxle_tensorflow/tensorflow_v2.py]:
    the class [Tensorflow2ModelStep] (constructor, [setup], [strip], [fit],
    [transform]) and the class [TensorflowV2StepSaver] ([save_step],
    [load_step], [can_load]).

    The Python code mutates step objects in place and hands references to
    them around, so steps live in a store indexed by references and every
    method is a computation over that store.  TensorFlow and the user's
    factory functions are outside the file: they are the fields of the class
    [Env], each call to them is recorded in a trace, and each may raise. *)

From stdpp Require Import gmap strings list.

Open Scope string_scope.
Open Scope list_scope.

(** ** Values and references *)

(** References to Python objects.  [loc] names a step object in the store,
    [obj] a TensorFlow object (tensor, variable, model, optimizer, tape,
    checkpoint, checkpoint manager) and [callable] a user-supplied function. *)
Abbreviation loc := positive (only parsing).
Abbreviation obj := positive (only parsing).
Abbreviation callable := positive (only parsing).

(** An argument that is either Python's [None] or array-like data. *)
Inductive pyval (D : Type) :=
| PyNone
| PyData (d : D).
Arguments PyNone {D}.
Arguments PyData {D} d.

(** The savers a step is registered with. *)
Inductive Saver := TensorflowV2StepSaver.

(** The attributes of a [Tensorflow2ModelStep] object.  An attribute holding
    [None] in Python is [None] here. *)
Record Adapter := {
  create_model : callable;
  create_loss : callable;
  create_optimizer : callable;
  savers : list Saver;
  tf_model_checkpoint_folder : string;
  is_initialized : bool;
  optimizer : option obj;
  model : option obj;
  checkpoint : option obj;
  checkpoint_manager : option obj;
  loss : option obj
}.

Definition set_tf_model_checkpoint_folder (v : string) (a : Adapter) : Adapter :=
  {| create_model := create_model a; create_loss := create_loss a;
     create_optimizer := create_optimizer a; savers := savers a;
     tf_model_checkpoint_folder := v;
     is_initialized := is_initialized a;
     optimizer := optimizer a; model := model a; checkpoint := checkpoint a;
     checkpoint_manager := checkpoint_manager a; loss := loss a |}.

Definition set_is_initialized (v : bool) (a : Adapter) : Adapter :=
  {| create_model := create_model a; create_loss := create_loss a;
     create_optimizer := create_optimizer a; savers := savers a;
     tf_model_checkpoint_folder := tf_model_checkpoint_folder a;
     is_initialized := v;
     optimizer := optimizer a; model := model a; checkpoint := checkpoint a;
     checkpoint_manager := checkpoint_manager a; loss := loss a |}.

Definition set_optimizer (v : option obj) (a : Adapter) : Adapter :=
  {| create_model := create_model a; create_loss := create_loss a;
     create_optimizer := create_optimizer a; savers := savers a;
     tf_model_checkpoint_folder := tf_model_checkpoint_folder a;
     is_initialized := is_initialized a;
     optimizer := v; model := model a; checkpoint := checkpoint a;
     checkpoint_manager := checkpoint_manager a; loss := loss a |}.

Definition set_model (v : option obj) (a : Adapter) : Adapter :=
  {| create_model := create_model a; create_loss := create_loss a;
     create_optimizer := create_optimizer a; savers := savers a;
     tf_model_checkpoint_folder := tf_model_checkpoint_folder a;
     is_initialized := is_initialized a;
     optimizer := optimizer a; model := v; checkpoint := checkpoint a;
     checkpoint_manager := checkpoint_manager a; loss := loss a |}.

Definition set_checkpoint (v : option obj) (a : Adapter) : Adapter :=
  {| create_model := create_model a; create_loss := create_loss a;
     create_optimizer := create_optimizer a; savers := savers a;
     tf_model_checkpoint_folder := tf_model_checkpoint_folder a;
     is_initialized := is_initialized a;
     optimizer := optimizer a; model := model a; checkpoint := v;
     checkpoint_manager := checkpoint_manager a; loss := loss a |}.

Definition set_checkpoint_manager (v : option obj) (a : Adapter) : Adapter :=
  {| create_model := create_model a; create_loss := create_loss a;
     create_optimizer := create_optimizer a; savers := savers a;
     tf_model_checkpoint_folder := tf_model_checkpoint_folder a;
     is_initialized := is_initialized a;
     optimizer := optimizer a; model := model a; checkpoint := checkpoint a;
     checkpoint_manager := v; loss := loss a |}.

Definition set_loss (v : option obj) (a : Adapter) : Adapter :=
  {| create_model := create_model a; create_loss := create_loss a;
     create_optimizer := create_optimizer a; savers := savers a;
     tf_model_checkpoint_folder := tf_model_checkpoint_folder a;
     is_initialized := is_initialized a;
     optimizer := optimizer a; model := model a; checkpoint := checkpoint a;
     checkpoint_manager := checkpoint_manager a; loss := v |}.

(** ** Outcomes *)

(** A call either returns a value or raises. *)
Inductive outcome (E A : Type) :=
| Ret (a : A)
| Raise (e : E).
Arguments Ret {E A} a.
Arguments Raise {E A} e.

(** What a method of this file can raise: the fault of using an attribute
    that holds no object ([attr] names it), or whatever TensorFlow or a
    factory raised, passed on unchanged.  [NoSuchObject] is the use of a
    reference that names no step; Python has no such reference. *)
Inductive exn (X : Type) :=
| NullFault (attr : string)
| Raised (x : X)
| NoSuchObject.
Arguments NullFault {X} attr.
Arguments Raised {X} x.
Arguments NoSuchObject {X}.

(** ** The environment: TensorFlow and the user's callables

    Every operation takes the runtime's hidden state (variable values, the
    files of the checkpoint directory) and returns an outcome with the new
    hidden state.  The user's factories get the step they are called on and
    read the store; they are taken not to assign the step's attributes. *)
Class Env := {
  World : Type;
  Data : Type;
  Exn : Type;
  ExecutionContext : Type;
  (** [f(self)] for a model or optimizer factory [f] *)
  call_factory : callable → loc → gmap loc Adapter → World → outcome Exn (option obj) * World;
  (** [f(self, y, output)] for a loss factory [f] *)
  call_loss : callable → loc → gmap loc Adapter → obj → obj → World → outcome Exn (option obj) * World;
  (** [tf.Variable(init)] *)
  tf_Variable : Z → World → outcome Exn obj * World;
  (** [tf.train.Checkpoint(step=.., optimizer=.., net=..)] *)
  tf_train_Checkpoint : obj → option obj → option obj → World → outcome Exn obj * World;
  (** [tf.train.CheckpointManager(checkpoint, directory, max_to_keep=..)] *)
  tf_train_CheckpointManager : option obj → string → Z → World → outcome Exn obj * World;
  (** [manager.save()], which returns the path written *)
  manager_save : obj → World → outcome Exn string * World;
  (** [manager.latest_checkpoint], [None] when the directory has none *)
  manager_latest_checkpoint : obj → World → outcome Exn (option string) * World;
  (** [checkpoint.restore(path)] *)
  checkpoint_restore : obj → option string → World → outcome Exn unit * World;
  (** [tf.convert_to_tensor(v)] *)
  tf_convert_to_tensor : pyval Data → World → outcome Exn obj * World;
  (** [tf.GradientTape()] entered by a [with] statement *)
  tf_GradientTape : World → outcome Exn obj * World;
  (** leaving the [with] block of a tape *)
  tape_exit : obj → World → World;
  (** [model(x)] *)
  model_call : obj → obj → World → outcome Exn obj * World;
  (** [model.trainable_variables] *)
  model_trainable_variables : obj → World → outcome Exn (list obj) * World;
  (** [tape.gradient(target, sources)], one gradient or [None] per source *)
  tape_gradient : obj → option obj → list obj → World → outcome Exn (list (option obj)) * World;
  (** [optimizer.apply_gradients(grads_and_vars)] *)
  optimizer_apply_gradients : obj → list (option obj * obj) → World → outcome Exn unit * World;
  (** [tensor.numpy()] *)
  tensor_numpy : obj → World → outcome Exn Data * World
}.

Section Embedding.
Context `{E : Env}.

(** The calls that leave the file, in the order they are made. *)
Inductive Event :=
| EvFactory (f : callable) (self : loc)
| EvLoss (f : callable) (self : loc) (y output : obj)
| EvVariable (init : Z)
| EvCheckpoint (step : obj) (opt net : option obj)
| EvCheckpointManager (ckpt : option obj) (directory : string) (max_to_keep : Z)
| EvSave (manager : obj)
| EvLatestCheckpoint (manager : obj)
| EvRestore (ckpt : obj) (path : option string)
| EvConvertToTensor (v : pyval Data)
| EvGradientTape
| EvTapeExit (tape : obj)
| EvCall (m x : obj)
| EvTrainableVariables (m : obj)
| EvGradient (tape : obj) (target : option obj) (sources : list obj)
| EvApplyGradients (opt : obj) (grads_and_vars : list (option obj * obj))
| EvNumpy (t : obj).

(** The whole state: the step objects, the runtime's state and the trace. *)
Record State := {
  store : gmap loc Adapter;
  world : World;
  trace : list Event
}.

Definition with_store (s : gmap loc Adapter) (σ : State) : State :=
  {| store := s; world := world σ; trace := trace σ |}.

(** ** The monad of methods *)

Definition M (A : Type) : Type := State → outcome (exn Exn) A * State.

#[export] Instance M_ret : MRet M := λ A a σ, (Ret a, σ).

#[export] Instance M_bind : MBind M := λ A B k m σ,
  match m σ with
  | (Ret a, σ') => k a σ'
  | (Raise e, σ') => (Raise e, σ')
  end.

Definition raise {A} (e : exn Exn) : M A := λ σ, (Raise e, σ).

(** A call into the environment: logged, then run on the runtime's state. *)
Definition external {A} (ev : Event) (f : World → outcome Exn A * World) : M A :=
  λ σ,
    let r := f (world σ) in
    (match r.1 with Ret a => Ret a | Raise x => Raise (Raised x) end,
     {| store := store σ; world := r.2; trace := trace σ ++ [ev] |}).

(** Reading the attributes of [self]. *)
Definition getattr (self : loc) : M Adapter := λ σ,
  match store σ !! self with
  | Some a => (Ret a, σ)
  | None => (Raise NoSuchObject, σ)
  end.

(** Assigning an attribute of [self]. *)
Definition setattr (self : loc) (f : Adapter → Adapter) : M unit := λ σ,
  match store σ !! self with
  | Some a => (Ret tt, with_store (<[self := f a]> (store σ)) σ)
  | None => (Raise NoSuchObject, σ)
  end.

(** Using the object an attribute holds: a fault when it holds [None]. *)
Definition deref (attr : string) (o : option obj) : M obj :=
  match o with
  | Some x => mret x
  | None => raise (NullFault attr)
  end.

(** [f(self)]: the factory sees the store as it is at the call. *)
Definition invoke (f : callable) (self : loc) : M (option obj) := λ σ,
  external (EvFactory f self) (call_factory f self (store σ)) σ.

Definition invoke_loss (f : callable) (self : loc) (y output : obj) : M (option obj) := λ σ,
  external (EvLoss f self y output) (call_loss f self (store σ) y output) σ.

(** The body of a [with tf.GradientTape() as tape] block: the tape is left
    when the body returns and also when it raises. *)
Definition finally {A} (body : M A) (tape : obj) : M A := λ σ,
  let r := body σ in
  (r.1, {| store := store r.2; world := tape_exit tape (world r.2);
           trace := trace r.2 ++ [EvTapeExit tape] |}).

(** ** Tensorflow2ModelStep *)

(** Modelled from the spec: [BaseTensorflowModelStep.__init__], of
    [neuraxle_tensorflow/tensorflow.py], which is not among the sources.  It
    stores the three factories and registers the saver; the step it builds is
    uninitialized and holds no live framework object.  The checkpoint folder
    is not an attribute yet: it is assigned by the subclass constructor
    before the object is visible to anyone. *)
Definition BaseTensorflowModelStep_init
    (create_model create_loss create_optimizer : callable) (step_saver : Saver) : Adapter :=
  {| create_model := create_model; create_loss := create_loss;
     create_optimizer := create_optimizer; savers := [step_saver];
     tf_model_checkpoint_folder := "";
     is_initialized := false;
     optimizer := None; model := None; checkpoint := None;
     checkpoint_manager := None; loss := None |}.

(** Allocation of a new step object. *)
Definition alloc (a : Adapter) : M loc := λ σ,
  let l := fresh (dom (store σ)) in
  (Ret l, with_store (<[l := a]> (store σ)) σ).

(** [Tensorflow2ModelStep(create_model, create_loss, create_optimizer,
    tf_model_checkpoint_folder=None)]: the object is built and
    [__init__] runs on it. *)
Definition Tensorflow2ModelStep
    (create_model create_loss create_optimizer : callable)
    (tf_model_checkpoint_folder : option string) : M loc :=
  self ← alloc (BaseTensorflowModelStep_init create_model create_loss create_optimizer
                  TensorflowV2StepSaver);
  let tf_model_checkpoint_folder :=
    match tf_model_checkpoint_folder with
    | None => "tensorflow_ckpts"
    | Some folder => folder
    end in
  setattr self (set_tf_model_checkpoint_folder tf_model_checkpoint_folder);;
  mret self.

Definition setup (self : loc) : M loc :=
  a ← getattr self;
  if is_initialized a then mret self
  else
    opt ← invoke (create_optimizer a) self;
    setattr self (set_optimizer opt);;
    a ← getattr self;
    net ← invoke (create_model a) self;
    setattr self (set_model net);;
    step ← external (EvVariable 1) (tf_Variable 1);
    a ← getattr self;
    ckpt ← external (EvCheckpoint step (optimizer a) (model a))
                    (tf_train_Checkpoint step (optimizer a) (model a));
    setattr self (set_checkpoint (Some ckpt));;
    a ← getattr self;
    manager ← external
      (EvCheckpointManager (checkpoint a) (tf_model_checkpoint_folder a) 3)
      (tf_train_CheckpointManager (checkpoint a) (tf_model_checkpoint_folder a) 3);
    setattr self (set_checkpoint_manager (Some manager));;
    setattr self (set_is_initialized true);;
    mret self.

Definition strip (self : loc) : M unit :=
  setattr self (set_optimizer None);;
  setattr self (set_model None);;
  setattr self (set_checkpoint None);;
  setattr self (set_checkpoint_manager None).

Definition fit (self : loc) (data_inputs expected_outputs : pyval Data) : M loc :=
  x ← external (EvConvertToTensor data_inputs) (tf_convert_to_tensor data_inputs);
  y ← external (EvConvertToTensor expected_outputs) (tf_convert_to_tensor expected_outputs);
  tape ← external EvGradientTape tf_GradientTape;
  finally
    (a ← getattr self;
     net ← deref "model" (model a);
     output ← external (EvCall net x) (model_call net x);
     a ← getattr self;
     l ← invoke_loss (create_loss a) self y output;
     setattr self (set_loss l))
    tape;;
  a ← getattr self;
  opt ← deref "optimizer" (optimizer a);
  net ← deref "model" (model a);
  sources ← external (EvTrainableVariables net) (model_trainable_variables net);
  grads ← external (EvGradient tape (loss a) sources) (tape_gradient tape (loss a) sources);
  a ← getattr self;
  net ← deref "model" (model a);
  vars ← external (EvTrainableVariables net) (model_trainable_variables net);
  external (EvApplyGradients opt (zip grads vars))
           (optimizer_apply_gradients opt (zip grads vars));;
  mret self.

(** [fit(data_inputs)], the second argument left at its default. *)
Definition fit_default (self : loc) (data_inputs : pyval Data) : M loc :=
  fit self data_inputs PyNone.

Definition transform (self : loc) (data_inputs : pyval Data) : M Data :=
  a ← getattr self;
  x ← external (EvConvertToTensor data_inputs) (tf_convert_to_tensor data_inputs);
  net ← deref "model" (model a);
  output ← external (EvCall net x) (model_call net x);
  external (EvNumpy output) (tensor_numpy output).

(** ** TensorflowV2StepSaver *)

Definition save_step (step : loc) (context : ExecutionContext) : M loc :=
  a ← getattr step;
  manager ← deref "checkpoint_manager" (checkpoint_manager a);
  external (EvSave manager) (manager_save manager);;
  strip step;;
  mret step.

Definition load_step (step : loc) (context : ExecutionContext) : M loc :=
  setattr step (set_is_initialized false);;
  setup step;;
  a ← getattr step;
  ckpt ← deref "checkpoint" (checkpoint a);
  a ← getattr step;
  manager ← deref "checkpoint_manager" (checkpoint_manager a);
  latest ← external (EvLatestCheckpoint manager) (manager_latest_checkpoint manager);
  external (EvRestore ckpt latest) (checkpoint_restore ckpt latest);;
  mret step.

Definition can_load (step : loc) (context : ExecutionContext) : M bool :=
  mret true.


(** ** The public operations and the states they reach *)

Inductive Op :=
| OpConstruct (create_model create_loss create_optimizer : callable)
              (tf_model_checkpoint_folder : option string)
| OpSetup (self : loc)
| OpStrip (self : loc)
| OpFit (self : loc) (data_inputs expected_outputs : pyval Data)
| OpTransform (self : loc) (data_inputs : pyval Data)
| OpSaveStep (step : loc) (context : ExecutionContext)
| OpLoadStep (step : loc) (context : ExecutionContext)
| OpCanLoad (step : loc) (context : ExecutionContext).

(** The state an operation leaves and whether it returned. *)
Definition run_op (o : Op) (σ : State) : outcome (exn Exn) unit * State :=
  match o with
  | OpConstruct cm cl co folder => (Tensorflow2ModelStep cm cl co folder ;; mret tt) σ
  | OpSetup self => (setup self ;; mret tt) σ
  | OpStrip self => strip self σ
  | OpFit self x y => (fit self x y ;; mret tt) σ
  | OpTransform self x => (transform self x ;; mret tt) σ
  | OpSaveStep step ctx => (save_step step ctx ;; mret tt) σ
  | OpLoadStep step ctx => (load_step step ctx ;; mret tt) σ
  | OpCanLoad step ctx => (can_load step ctx ;; mret tt) σ
  end.

(** Before anything is constructed there is no step. *)
Definition initial (w : World) : State := {| store := ∅; world := w; trace := [] |}.

(** States reached from an empty store by operations that returned. *)
Inductive reachable : State → Prop :=
| reachable_initial w : reachable (initial w)
| reachable_step σ o σ' :
    reachable σ → run_op o σ = (Ret tt, σ') → reachable σ'.

(** The four live framework references of a step. *)
Definition live (a : Adapter) : Prop :=
  is_Some (model a) ∧ is_Some (optimizer a) ∧
  is_Some (checkpoint a) ∧ is_Some (checkpoint_manager a).

Definition stripped (a : Adapter) : Prop :=
  model a = None ∧ optimizer a = None ∧
  checkpoint a = None ∧ checkpoint_manager a = None.

(** What [setup] makes of an uninitialized step [a], given what the
    factories and the constructors returned. *)
Definition after_setup (a : Adapter) (opt net : option obj) (ckpt manager : obj) : Adapter :=
  set_is_initialized true
    (set_checkpoint_manager (Some manager)
       (set_checkpoint (Some ckpt) (set_model net (set_optimizer opt a)))).

(** The calls [setup] makes on an uninitialized step, in order. *)
Definition setup_events (a : Adapter) (self : loc) (opt net : option obj)
    (step ckpt : obj) : list Event :=
  [ EvFactory (create_optimizer a) self;
    EvFactory (create_model a) self;
    EvVariable 1;
    EvCheckpoint step opt net;
    EvCheckpointManager (Some ckpt) (tf_model_checkpoint_folder a) 3 ].

(** Those calls all return: the optimizer factory gives [opt], then the
    model factory [net], [tf.Variable(1)] gives [step], the checkpoint
    constructor [ckpt] and the manager constructor [manager], taking the
    runtime from [w] to [w']. *)
Definition setup_calls_return (a : Adapter) (self : loc) (s : gmap loc Adapter)
    (w : World) (opt net : option obj) (step ckpt manager : obj) (w' : World) : Prop :=
  ∃ w1 w2 w3 w4,
    call_factory (create_optimizer a) self s w = (Ret opt, w1) ∧
    call_factory (create_model a) self (<[self := set_optimizer opt a]> s) w1 = (Ret net, w2) ∧
    tf_Variable 1 w2 = (Ret step, w3) ∧
    tf_train_Checkpoint step opt net w3 = (Ret ckpt, w4) ∧
    tf_train_CheckpointManager (Some ckpt) (tf_model_checkpoint_folder a) 3 w4
      = (Ret manager, w').

(** The calls [fit] makes on a step holding the model [net] and the optimizer
    [opt] all return: the two conversions give [x] and [y], the tape is
    [tape], the forward pass gives [output], the loss factory [l]; once the
    tape is left, the model's trainable variables are [sources], their
    gradients [grads], the variables read again are [vars], and the optimizer
    step returns.  The runtime goes from [w] to [w']. *)
Definition fit_calls_return (a : Adapter) (self : loc) (s : gmap loc Adapter)
    (w : World) (data_inputs expected_outputs : pyval Data) (net opt : obj)
    (x y tape output : obj) (l : option obj) (sources : list obj)
    (grads : list (option obj)) (vars : list obj) (w' : World) : Prop :=
  ∃ w1 w2 w3 w4 w5 w6 w7 w8,
    tf_convert_to_tensor data_inputs w = (Ret x, w1) ∧
    tf_convert_to_tensor expected_outputs w1 = (Ret y, w2) ∧
    tf_GradientTape w2 = (Ret tape, w3) ∧
    model_call net x w3 = (Ret output, w4) ∧
    call_loss (create_loss a) self s y output w4 = (Ret l, w5) ∧
    model_trainable_variables net (tape_exit tape w5) = (Ret sources, w6) ∧
    tape_gradient tape l sources w6 = (Ret grads, w7) ∧
    model_trainable_variables net w7 = (Ret vars, w8) ∧
    optimizer_apply_gradients opt (zip grads vars) w8 = (Ret tt, w').

(** What [strip] makes of a step. *)
Definition after_strip (a : Adapter) : Adapter :=
  set_checkpoint_manager None (set_checkpoint None (set_model None (set_optimizer None a))).

(** A step holds some framework object. *)
Definition holds_reference (a : Adapter) : Prop :=
  is_Some (model a) ∨ is_Some (optimizer a) ∨
  is_Some (checkpoint a) ∨ is_Some (checkpoint_manager a).

(** The invariant the data model states: each step has its four references
    exactly when its flag is set. *)
Definition references_iff_flag (σ : State) : Prop :=
  ∀ l a, store σ !! l = Some a → (live a ↔ is_initialized a = true).

(** The half of it that the operations keep: a step that holds a framework
    object has its flag set. *)
Definition references_imply_flag (σ : State) : Prop :=
  ∀ l a, store σ !! l = Some a → holds_reference a → is_initialized a = true.

(** A method respects a relation on states when every run of it, returning
    or raising, ends in a state related to the one it started from. *)
Definition respects (R : relation State) {A} (m : M A) : Prop :=
  ∀ σ, R σ (m σ).2.

(** [σ'] continues [σ]: the trace has only grown, and every step is still
    there with the folder it had. *)
Definition continues (σ σ' : State) : Prop :=
  trace σ `prefix_of` trace σ' ∧
  ∀ l a, store σ !! l = Some a →
    ∃ a', store σ' !! l = Some a' ∧
          tf_model_checkpoint_folder a' = tf_model_checkpoint_folder a.

(** [a'] has the flag and the four references of [a]. *)
Definition same_references (a a' : Adapter) : Prop :=
  is_initialized a' = is_initialized a ∧
  model a' = model a ∧ optimizer a' = optimizer a ∧
  checkpoint a' = checkpoint a ∧ checkpoint_manager a' = checkpoint_manager a.

(** Every step of [σ'] was in [σ] with the same flag and references. *)
Definition references_kept (σ σ' : State) : Prop :=
  ∀ l a', store σ' !! l = Some a' →
    ∃ a, store σ !! l = Some a ∧ same_references a a'.

(** A sequence of operations, each run whether or not the one before
    returned. *)
Definition run_ops (ops : list Op) (σ : State) : State :=
  foldl (λ σ o, (run_op o σ).2) σ ops.

(** The events a run added to the trace. *)
Definition events_since (σ σ' : State) : list Event :=
  drop (length (trace σ)) (trace σ').

(** The calls an inference may make: a conversion, a forward pass, a read of
    the result. *)
Definition is_inference_event (ev : Event) : bool :=
  match ev with
  | EvConvertToTensor _ | EvCall _ _ | EvNumpy _ => true
  | _ => false
  end.

(** Every step but [self] is as it was. *)
Definition others_kept (self : loc) (σ σ' : State) : Prop :=
  ∀ l, l ≠ self → store σ' !! l = store σ !! l.

(** Nothing in the store changed but, at most, the [loss] of [self]. *)
Definition only_loss_changes (self : loc) (σ σ' : State) : Prop :=
  others_kept self σ σ' ∧
  (store σ' !! self = store σ !! self ∨
   ∃ a v, store σ !! self = Some a ∧ store σ' !! self = Some (set_loss v a)).

(** [a'] has the factories, the savers and the folder of [a]. *)
Definition same_config (a a' : Adapter) : Prop :=
  create_model a' = create_model a ∧ create_loss a' = create_loss a ∧
  create_optimizer a' = create_optimizer a ∧ savers a' = savers a ∧
  tf_model_checkpoint_folder a' = tf_model_checkpoint_folder a.

(** Every step of [σ] is still in [σ'] with the same configuration. *)
Definition config_kept (σ σ' : State) : Prop :=
  ∀ l a, store σ !! l = Some a → ∃ a', store σ' !! l = Some a' ∧ same_config a a'.

(** The store is as it was. *)
Definition store_kept (σ σ' : State) : Prop := store σ' = store σ.

(** The step an operation works on; for the constructor, the new one. *)
Definition op_target (o : Op) (σ : State) : loc :=
  match o with
  | OpConstruct _ _ _ _ => fresh (dom (store σ))
  | OpSetup self | OpStrip self | OpFit self _ _ | OpTransform self _ => self
  | OpSaveStep step _ | OpLoadStep step _ | OpCanLoad step _ => step
  end.

End Embedding.

(** ** A small environment to run the methods in

    Objects are numbered in the order they are made; the runtime's state is
    the next number and how many checkpoints were saved.  Converting [None]
    to a tensor raises, as TensorFlow does; nothing else raises. *)

Record ToyWorld := {
  next_obj : positive;
  saved : nat
}.

Definition toy_new (w : ToyWorld) : outcome string positive * ToyWorld :=
  (Ret (next_obj w), {| next_obj := Pos.succ (next_obj w); saved := saved w |}).

Definition toy_convert (v : pyval (list Z)) (w : ToyWorld) : outcome string positive * ToyWorld :=
  match v with
  | PyNone => (Raise "None values not supported.", w)
  | PyData _ => toy_new w
  end.

Definition toy_factory (w : ToyWorld) : outcome string (option positive) * ToyWorld :=
  (Ret (Some (next_obj w)), {| next_obj := Pos.succ (next_obj w); saved := saved w |}).

Definition toy : Env := {|
  World := ToyWorld;
  Data := list Z;
  Exn := string;
  ExecutionContext := unit;
  call_factory _ _ _ := toy_factory;
  call_loss _ _ _ _ _ := toy_factory;
  tf_Variable _ := toy_new;
  tf_train_Checkpoint _ _ _ := toy_new;
  tf_train_CheckpointManager _ _ _ := toy_new;
  manager_save _ w := (Ret "ckpt", {| next_obj := next_obj w; saved := S (saved w) |});
  manager_latest_checkpoint _ w :=
    (Ret (match saved w with O => None | S _ => Some "ckpt" end), w);
  checkpoint_restore _ _ w := (Ret tt, w);
  tf_convert_to_tensor := toy_convert;
  tf_GradientTape := toy_new;
  tape_exit _ w := w;
  model_call _ _ := toy_new;
  model_trainable_variables m w := (Ret [Pos.succ m; Pos.succ (Pos.succ m)], w);
  tape_gradient _ _ sources w := (Ret (map (λ v, Some (v + 100)%positive) sources), w);
  optimizer_apply_gradients _ _ w := (Ret tt, w);
  tensor_numpy _ w := (Ret [0%Z], w)
|}.

Definition toy_world : ToyWorld := {| next_obj := 1; saved := 0 |}.

(** A step as the constructor leaves it, alone in the store. *)
Definition toy_fresh_step : Adapter :=
  set_tf_model_checkpoint_folder "tensorflow_ckpts"
    (BaseTensorflowModelStep_init 1 2 3 TensorflowV2StepSaver).

Definition toy_state (a : Adapter) : @State toy :=
  @Build_State toy {[ 1%positive := a ]} toy_world [].

(** The same step after [setup]. *)
Definition toy_live_step : Adapter :=
  set_is_initialized true
    (set_checkpoint_manager (Some 5%positive)
       (set_checkpoint (Some 4%positive)
          (set_model (Some 2%positive) (set_optimizer (Some 1%positive) toy_fresh_step)))).

(** Construction and [setup] of one step, and then its save. *)
Definition toy_setup_ops : list (@Op toy) :=
  [@OpConstruct toy 1 2 3 None; @OpSetup toy 1].

Definition toy_save_ops : list (@Op toy) :=
  toy_setup_ops ++ [@OpSaveStep toy 1 tt].

Definition toy_initial : @State toy := @initial toy toy_world.

(** The runtime after [setup] of the first step, and after its save. *)
Definition toy_world_setup : ToyWorld := {| next_obj := 6; saved := 0 |}.

Definition toy_world_saved : ToyWorld := {| next_obj := 6; saved := 1 |}.

Definition toy_setup_state : @State toy := run_ops toy_setup_ops toy_initial.

Definition toy_saved_state : @State toy := run_ops toy_save_ops toy_initial.

(** ** An environment in which calls fail

    As [toy], but the factory numbered 9 raises, and restoring when the
    manager has no checkpoint raises. *)

Definition faulty_factory (f : positive) (w : ToyWorld)
    : outcome string (option positive) * ToyWorld :=
  if decide (f = 9%positive) then (Raise "factory failed", w) else toy_factory w.

Definition faulty_restore (path : option string) (w : ToyWorld)
    : outcome string unit * ToyWorld :=
  match path with
  | None => (Raise "no checkpoint", w)
  | Some _ => (Ret tt, w)
  end.

Definition toy_faulty : Env := {|
  World := ToyWorld;
  Data := list Z;
  Exn := string;
  ExecutionContext := unit;
  call_factory f _ _ := faulty_factory f;
  call_loss _ _ _ _ _ := toy_factory;
  tf_Variable _ := toy_new;
  tf_train_Checkpoint _ _ _ := toy_new;
  tf_train_CheckpointManager _ _ _ := toy_new;
  manager_save _ w := (Raise "disk full", w);
  manager_latest_checkpoint _ w :=
    (Ret (match saved w with O => None | S _ => Some "ckpt" end), w);
  checkpoint_restore _ := faulty_restore;
  tf_convert_to_tensor := toy_convert;
  tf_GradientTape := toy_new;
  tape_exit _ w := w;
  model_call _ _ := toy_new;
  model_trainable_variables m w := (Ret [Pos.succ m; Pos.succ (Pos.succ m)], w);
  tape_gradient _ _ _ w := (Raise "no gradient", w);
  optimizer_apply_gradients _ _ w := (Ret tt, w);
  tensor_numpy _ w := (Ret [0%Z], w)
|}.

(** A fresh step whose model factory is the one that raises. *)
Definition faulty_fresh_step : Adapter :=
  set_tf_model_checkpoint_folder "tensorflow_ckpts"
    (BaseTensorflowModelStep_init 9 2 3 TensorflowV2StepSaver).

Definition faulty_state (a : Adapter) : @State toy_faulty :=
  @Build_State toy_faulty {[ 1%positive := a ]} toy_world [].

(** A step holding a model and no optimizer, as [setup] leaves it when the
    optimizer factory returns [None]. *)
Definition toy_no_optimizer_step : Adapter := set_optimizer None toy_live_step.

(** A live step whose optimizer factory is the one that raises. *)
Definition faulty_live_step : Adapter :=
  after_setup
    (set_tf_model_checkpoint_folder "tensorflow_ckpts"
       (BaseTensorflowModelStep_init 1 2 9 TensorflowV2StepSaver))
    (Some 1%positive) (Some 2%positive) 4%positive 5%positive.

(** Two steps side by side. *)
Definition toy_two_steps : @State toy :=
  @Build_State toy (<[2%positive := toy_fresh_step]> {[ 1%positive := toy_live_step ]})
    toy_world_setup [].

Section Properties.
Context `{E : Env}.

(** ** Running a method step by step *)

Lemma bind_ret_run {A B} (m : M A) (k : A → M B) σ a σ' :
  m σ = (Ret a, σ') → (m ≫= k) σ = k a σ'.
Proof. intros Hm. unfold mbind, M_bind. by rewrite Hm. Qed.

Lemma bind_raise_run {A B} (m : M A) (k : A → M B) σ e σ' :
  m σ = (Raise e, σ') → (m ≫= k) σ = (Raise e, σ').
Proof. intros Hm. unfold mbind, M_bind. by rewrite Hm. Qed.

Lemma bind_inv {A B} (m : M A) (k : A → M B) σ b σ' :
  (m ≫= k) σ = (Ret b, σ') → ∃ a σ1, m σ = (Ret a, σ1) ∧ k a σ1 = (Ret b, σ').
Proof.
  unfold mbind, M_bind. destruct (m σ) as [[a|e] σ1]; [eauto | discriminate].
Qed.

Lemma getattr_run self σ a :
  store σ !! self = Some a → getattr self σ = (Ret a, σ).
Proof. intros Hl. unfold getattr. by rewrite Hl. Qed.

Lemma setattr_run self f σ a :
  store σ !! self = Some a →
  setattr self f σ = (Ret tt, with_store (<[self := f a]> (store σ)) σ).
Proof. intros Hl. unfold setattr. by rewrite Hl. Qed.

Lemma external_ret {A} ev (f : World → outcome Exn A * World) σ a w :
  f (world σ) = (Ret a, w) →
  external ev f σ = (Ret a, {| store := store σ; world := w; trace := trace σ ++ [ev] |}).
Proof. intros Hf. unfold external. by rewrite Hf. Qed.

Lemma external_raise {A} ev (f : World → outcome Exn A * World) σ x w :
  f (world σ) = (Raise x, w) →
  external ev f σ
  = (Raise (Raised x), {| store := store σ; world := w; trace := trace σ ++ [ev] |}).
Proof. intros Hf. unfold external. by rewrite Hf. Qed.


Lemma bind_mret_run {A B} (a : A) (k : A → M B) σ : (mret a ≫= k) σ = k a σ.
Proof. reflexivity. Qed.

Lemma invoke_ret f self σ r w :
  call_factory f self (store σ) (world σ) = (Ret r, w) →
  invoke f self σ
  = (Ret r, {| store := store σ; world := w; trace := trace σ ++ [EvFactory f self] |}).
Proof. intros Hf. unfold invoke. by apply external_ret. Qed.

Lemma invoke_loss_ret f self y output σ r w :
  call_loss f self (store σ) y output (world σ) = (Ret r, w) →
  invoke_loss f self y output σ
  = (Ret r, {| store := store σ; world := w;
               trace := trace σ ++ [EvLoss f self y output] |}).
Proof. intros Hf. unfold invoke_loss. by apply external_ret. Qed.

Lemma invoke_raise f self σ x w :
  call_factory f self (store σ) (world σ) = (Raise x, w) →
  invoke f self σ
  = (Raise (Raised x),
     {| store := store σ; world := w; trace := trace σ ++ [EvFactory f self] |}).
Proof. intros Hf. unfold invoke. by apply external_raise. Qed.

Lemma invoke_loss_raise f self y output σ x w :
  call_loss f self (store σ) y output (world σ) = (Raise x, w) →
  invoke_loss f self y output σ
  = (Raise (Raised x),
     {| store := store σ; world := w;
        trace := trace σ ++ [EvLoss f self y output] |}).
Proof. intros Hf. unfold invoke_loss. by apply external_raise. Qed.

Lemma trace_app_cons (t : list Event) ev evs : (t ++ [ev]) ++ evs = t ++ ev :: evs.
Proof. by rewrite <- app_assoc. Qed.

(** Reduces the reads of record fields. *)
Ltac fields :=
  cbn [store world trace with_store
       create_model create_loss create_optimizer savers tf_model_checkpoint_folder
       is_initialized optimizer model checkpoint checkpoint_manager loss
       set_tf_model_checkpoint_folder set_is_initialized set_optimizer set_model
       set_checkpoint set_checkpoint_manager set_loss
       after_setup after_strip deref] in *.

Ltac lookup_self := fields; first [eassumption | apply lookup_insert_eq].

(** Runs the first statement of a method when it returns. *)
Ltac exec1 :=
  fields;
  first
    [ rewrite bind_mret_run
    | erewrite bind_ret_run by (apply getattr_run; lookup_self)
    | erewrite bind_ret_run by (apply setattr_run; lookup_self)
    | erewrite bind_ret_run by (apply invoke_ret; fields; eassumption)
    | erewrite bind_ret_run by (apply invoke_loss_ret; fields; eassumption)
    | erewrite bind_ret_run by (apply external_ret; fields; eassumption)
    | erewrite setattr_run by lookup_self ];
  fields.

Ltac exec := repeat exec1.

(** Runs the first statement of a method when it is a call that raises. *)
Ltac exec_raise :=
  first
    [ erewrite bind_raise_run by (apply invoke_raise; fields; eassumption)
    | erewrite bind_raise_run by (apply invoke_loss_raise; fields; eassumption)
    | erewrite bind_raise_run by (apply external_raise; fields; eassumption)
    | erewrite external_raise by (fields; eassumption) ];
  fields.

(** Splits on the outcome of the call a method is about to make. *)
Ltac case_call :=
  match goal with
  | |- context [mbind _ (external _ ?f) ?σ] =>
      destruct (f (world σ)) as [[?|?] ?] eqn:?
  | |- context [mbind _ (invoke ?f ?self) ?σ] =>
      destruct (call_factory f self (store σ) (world σ)) as [[?|?] ?] eqn:?
  | |- context [mbind _ (invoke_loss ?f ?self ?y ?o) ?σ] =>
      destruct (call_loss f self (store σ) y o (world σ)) as [[?|?] ?] eqn:?
  | |- context [external _ ?f ?σ] =>
      destruct (f (world σ)) as [[?|?] ?] eqn:?
  end;
  fields; [exec | exec_raise].

(** ** Relations every run respects *)

Section Respects.
Context (R : relation State) `{!PreOrder R}.
Hypothesis R_call : ∀ σ w ev,
  R σ {| store := store σ; world := w; trace := trace σ ++ [ev] |}.

Lemma respects_mret {A} (a : A) : respects R (mret a).
Proof. intros σ. reflexivity. Qed.

Lemma respects_raise {A} e : respects R (raise (A:=A) e).
Proof. intros σ. reflexivity. Qed.

Lemma respects_bind {A B} (m : M A) (k : A → M B) :
  respects R m → (∀ a, respects R (k a)) → respects R (m ≫= k).
Proof.
  intros Hm Hk σ. unfold mbind, M_bind.
  specialize (Hm σ). destruct (m σ) as [[a|e] σ1]; [|exact Hm].
  etrans; [exact Hm|apply Hk].
Qed.

Lemma respects_getattr self : respects R (getattr self).
Proof. intros σ. unfold getattr. by destruct (store σ !! self). Qed.

Lemma respects_deref attr o : respects R (deref attr o).
Proof. destruct o; [apply respects_mret|apply respects_raise]. Qed.

Lemma respects_external {A} ev (f : World → outcome Exn A * World) :
  respects R (external ev f).
Proof. intros σ. apply R_call. Qed.

Lemma respects_invoke f self : respects R (invoke f self).
Proof. intros σ. apply R_call. Qed.

Lemma respects_invoke_loss f self y output : respects R (invoke_loss f self y output).
Proof. intros σ. apply R_call. Qed.

Lemma respects_finally {A} (body : M A) tape :
  respects R body → respects R (finally body tape).
Proof. intros Hb σ. unfold finally. simpl. etrans; [apply Hb|apply R_call]. Qed.

Lemma respects_setattr self f :
  (∀ σ a, store σ !! self = Some a → R σ (with_store (<[self := f a]> (store σ)) σ)) →
  respects R (setattr self f).
Proof.
  intros Hf σ. unfold setattr.
  destruct (store σ !! self) eqn:Hl; [by apply Hf|reflexivity].
Qed.

End Respects.

Ltac respects_with Hcall Hset :=
  repeat
    match goal with
    | |- respects ?R (mret _) => solve [apply (respects_mret R)]
    | |- respects ?R (raise _) => solve [apply (respects_raise R)]
    | |- respects ?R (getattr _) => solve [apply (respects_getattr R)]
    | |- respects ?R (deref _ _) => solve [apply (respects_deref R)]
    | |- respects ?R (external _ _) => solve [apply (respects_external R Hcall)]
    | |- respects ?R (invoke _ _) => solve [apply (respects_invoke R Hcall)]
    | |- respects ?R (invoke_loss _ _ _ _) =>
        solve [apply (respects_invoke_loss R Hcall)]
    | |- respects ?R (setattr _ _) =>
        solve [apply (respects_setattr R); intros; by apply Hset]
    | |- respects ?R (finally _ _) => apply (respects_finally R Hcall)
    | |- respects ?R (_ ≫= _) => apply (respects_bind R); [|intros ?]
    | |- respects _ (if ?b then _ else _) => destruct b
    | |- respects _ (match ?o with Some _ => _ | None => _ end) => destruct o
    end.

#[local] Instance continues_preorder : PreOrder continues.
Proof.
  split.
  - intros σ. split; [done|eauto].
  - intros σ1 σ2 σ3 [Ht1 Hs1] [Ht2 Hs2]. split; [by etrans|].
    intros l a Hl. destruct (Hs1 l a Hl) as (a2 & Hl2 & Hf2).
    destruct (Hs2 l a2 Hl2) as (a3 & Hl3 & Hf3).
    exists a3. split; [done|congruence].
Qed.

Lemma continues_call σ w ev :
  continues σ {| store := store σ; world := w; trace := trace σ ++ [ev] |}.
Proof. split; [by apply prefix_app_r|eauto]. Qed.

Lemma continues_assign f self σ a :
  (∀ a, tf_model_checkpoint_folder (f a) = tf_model_checkpoint_folder a) →
  store σ !! self = Some a →
  continues σ (with_store (<[self := f a]> (store σ)) σ).
Proof.
  intros Hf Hl. split; [done|]. intros l b Hb. simpl.
  destruct (decide (self = l)) as [<-|Hne].
  - exists (f a). rewrite lookup_insert_eq. split; [done|]. rewrite Hf. congruence.
  - exists b. by rewrite lookup_insert_ne.
Qed.

Ltac continues_tac :=
  respects_with continues_call continues_assign.

Lemma setup_continues self : respects continues (setup self).
Proof. unfold setup. continues_tac. Qed.

Lemma strip_continues self : respects continues (strip self).
Proof. unfold strip. continues_tac. Qed.

Lemma fit_continues self x y : respects continues (fit self x y).
Proof. unfold fit. continues_tac. Qed.

Lemma transform_continues self x : respects continues (transform self x).
Proof. unfold transform. continues_tac. Qed.

Lemma save_step_continues step ctx : respects continues (save_step step ctx).
Proof. unfold save_step. continues_tac. apply strip_continues. Qed.

Lemma load_step_continues step ctx : respects continues (load_step step ctx).
Proof. unfold load_step. continues_tac. apply setup_continues. Qed.

(** ** The constructor *)

Lemma alloc_fresh (σ : State) : store σ !! fresh (dom (store σ)) = None.
Proof. apply not_elem_of_dom, is_fresh. Qed.

Lemma Tensorflow2ModelStep_run cm cl co folder σ :
  Tensorflow2ModelStep cm cl co folder σ
  = (Ret (fresh (dom (store σ))),
     with_store
       (<[fresh (dom (store σ)) :=
            set_tf_model_checkpoint_folder
              (match folder with None => "tensorflow_ckpts" | Some d => d end)
              (BaseTensorflowModelStep_init cm cl co TensorflowV2StepSaver)]>
          (store σ)) σ).
Proof.
  unfold Tensorflow2ModelStep.
  erewrite bind_ret_run by reflexivity.
  erewrite bind_ret_run by (apply setattr_run; apply lookup_insert_eq).
  unfold mret, M_ret, with_store. simpl. by rewrite insert_insert_eq.
Qed.

Lemma Tensorflow2ModelStep_continues cm cl co folder :
  respects continues (Tensorflow2ModelStep cm cl co folder).
Proof.
  intros σ. rewrite Tensorflow2ModelStep_run.
  split; [done|]. intros l b Hb. exists b. split; [|done]. simpl.
  rewrite lookup_insert_ne; [done|]. intros <-. by rewrite alloc_fresh in Hb.
Qed.

Lemma run_op_continues o σ : continues σ (run_op o σ).2.
Proof.
  destruct o; simpl;
    try (apply (respects_bind continues); [|intros ?; apply (respects_mret continues)]).
  - apply Tensorflow2ModelStep_continues.
  - apply setup_continues.
  - apply strip_continues.
  - apply fit_continues.
  - apply transform_continues.
  - apply save_step_continues.
  - apply load_step_continues.
  - reflexivity.
Qed.

Lemma run_ops_continues ops σ : continues σ (run_ops ops σ).
Proof.
  revert σ. induction ops as [|o ops IH]; intros σ; simpl; [reflexivity|].
  etrans; [apply run_op_continues|apply IH].
Qed.

(** ** strip *)

Lemma strip_run self a σ :
  store σ !! self = Some a →
  strip self σ = (Ret tt, with_store (<[self := after_strip a]> (store σ)) σ).
Proof.
  intros Hl. unfold strip. exec.
  by rewrite !insert_insert_eq.
Qed.

(** C5: in every state, [strip] on a step sets its [model], [optimizer],
    [checkpoint] and [checkpoint_manager] to [None], whatever they held, and
    changes nothing else: not the initialization flag, the factories, the
    folder, the savers or the loss of that step, no other step, not the
    runtime and not the trace. *)
Theorem strip_clears_references (self : loc) (a : Adapter) (σ : State) :
  store σ !! self = Some a →
  ∃ a',
    strip self σ = (Ret tt, {| store := <[self := a']> (store σ);
                               world := world σ; trace := trace σ |}) ∧
    model a' = None ∧ optimizer a' = None ∧
    checkpoint a' = None ∧ checkpoint_manager a' = None ∧
    is_initialized a' = is_initialized a ∧
    create_model a' = create_model a ∧ create_loss a' = create_loss a ∧
    create_optimizer a' = create_optimizer a ∧ savers a' = savers a ∧
    tf_model_checkpoint_folder a' = tf_model_checkpoint_folder a ∧
    loss a' = loss a.
Proof.
  intros Hl. exists (after_strip a). split; [by apply strip_run|].
  repeat split.
Qed.

(** ** setup *)

Lemma setup_initialized_run self a σ :
  store σ !! self = Some a → is_initialized a = true →
  setup self σ = (Ret self, σ).
Proof. intros Hl Hi. unfold setup. exec. by rewrite Hi. Qed.

Lemma setup_uninitialized_run self a σ opt net step ckpt manager w' :
  store σ !! self = Some a → is_initialized a = false →
  setup_calls_return a self (store σ) (world σ) opt net step ckpt manager w' →
  setup self σ
  = (Ret self,
     {| store := <[self := after_setup a opt net ckpt manager]> (store σ);
        world := w';
        trace := trace σ ++ setup_events a self opt net step ckpt |}).
Proof.
  intros Hl Hi (w1 & w2 & w3 & w4 & H1 & H2 & H3 & H4 & H5).
  unfold setup. exec1. rewrite Hi. exec.
  unfold mret, M_ret, setup_events.
  rewrite !insert_insert_eq, !trace_app_cons. reflexivity.
Qed.

(** A run of [setup] that returns has either found the flag set and done
    nothing, or found it clear and made all five calls. *)
Lemma setup_ret_inv self σ r σ' :
  setup self σ = (Ret r, σ') →
  r = self ∧ ∃ a, store σ !! self = Some a ∧
    ((is_initialized a = true ∧ σ' = σ) ∨
     (is_initialized a = false ∧
      ∃ opt net step ckpt manager w',
        setup_calls_return a self (store σ) (world σ) opt net step ckpt manager w' ∧
        σ' = {| store := <[self := after_setup a opt net ckpt manager]> (store σ);
                world := w';
                trace := trace σ ++ setup_events a self opt net step ckpt |})).
Proof.
  destruct (store σ !! self) as [a|] eqn:Hl.
  2:{ unfold setup. erewrite bind_raise_run; [discriminate|].
      unfold getattr. by rewrite Hl. }
  destruct (is_initialized a) eqn:Hi.
  { rewrite (setup_initialized_run _ _ _ Hl Hi). intros [= <- <-].
    split; [done|]. exists a. auto. }
  unfold setup. exec1. rewrite Hi.
  do 5 (case_call; [|discriminate]).
  unfold mret, M_ret. intros [= <- <-]. split; [done|].
  exists a. split; [done|]. right. split; [done|].
  do 6 eexists. split; [by unfold setup_calls_return; eauto 10|].
  unfold setup_events. by rewrite !insert_insert_eq, !trace_app_cons.
Qed.

Lemma setup_returns_initialized self σ r σ' :
  setup self σ = (Ret r, σ') →
  ∃ a', store σ' !! self = Some a' ∧ is_initialized a' = true.
Proof.
  intros (_ & a & Hl & [[Hi ->] | (_ & opt & net & step & ckpt & manager & w' & _ & ->)])%setup_ret_inv.
  - eauto.
  - eexists. split; [apply lookup_insert_eq|done].
Qed.

(** C3: [setup] on a step whose flag is set returns that step and changes
    nothing (no attribute, no call into the runtime or the factories); and
    for every step, [setup] run twice in a row ends exactly as [setup] run
    once: same result, same store, same runtime state, same calls made. *)
Theorem setup_idempotent (self : loc) (a : Adapter) (σ : State) :
  store σ !! self = Some a →
  (is_initialized a = true → setup self σ = (Ret self, σ)) ∧
  (setup self ;; setup self) σ = setup self σ.
Proof.
  intros Hl. split; [by apply setup_initialized_run|].
  destruct (setup self σ) as [[r|e] σ'] eqn:Hs.
  - erewrite bind_ret_run by eassumption.
    destruct (setup_ret_inv _ _ _ _ Hs) as [-> _].
    destruct (setup_returns_initialized _ _ _ _ Hs) as (a' & Hl' & Hi').
    by apply setup_initialized_run with a'.
  - by erewrite bind_raise_run by eassumption.
Qed.

(** C4: on a step whose flag is clear, when the calls return, [setup] calls
    the optimizer factory on the step, then the model factory on the step,
    then [tf.Variable(1)], then the checkpoint constructor on that counter,
    the optimizer and the model, then the checkpoint-manager constructor on
    that checkpoint, the step's folder and [max_to_keep=3], and nothing
    else; it stores the four objects in the step, sets the flag and returns
    the step. *)
Theorem setup_builds_in_order (self : loc) (a : Adapter) (σ : State)
    (opt net : option obj) (step ckpt manager : obj) (w' : World) :
  store σ !! self = Some a →
  is_initialized a = false →
  setup_calls_return a self (store σ) (world σ) opt net step ckpt manager w' →
  ∃ a',
    setup self σ
    = (Ret self,
       {| store := <[self := a']> (store σ);
          world := w';
          trace := trace σ ++
            [ EvFactory (create_optimizer a) self;
              EvFactory (create_model a) self;
              EvVariable 1;
              EvCheckpoint step opt net;
              EvCheckpointManager (Some ckpt) (tf_model_checkpoint_folder a) 3 ] |}) ∧
    optimizer a' = opt ∧ model a' = net ∧
    checkpoint a' = Some ckpt ∧ checkpoint_manager a' = Some manager ∧
    is_initialized a' = true.
Proof.
  intros Hl Hi Hcalls. exists (after_setup a opt net ckpt manager).
  split; [by apply setup_uninitialized_run|]. repeat split.
Qed.

(** Finds the manager event in a list of events written out. *)
Ltac pick_event :=
  rewrite !elem_of_cons, elem_of_nil;
  intuition (try discriminate);
  match goal with
  | H : EvCheckpointManager _ _ _ = EvCheckpointManager _ _ _ |- _ =>
      by injection H as -> -> ->
  end.

(** Whatever happens, every checkpoint manager [setup] constructs is bound
    to the step's folder and keeps three checkpoints. *)
Lemma setup_manager_events self a σ c d k :
  store σ !! self = Some a →
  EvCheckpointManager c d k ∈ events_since σ (setup self σ).2 →
  d = tf_model_checkpoint_folder a ∧ k = 3%Z.
Proof.
  intros Hl. destruct (is_initialized a) eqn:Hi.
  { rewrite (setup_initialized_run _ _ _ Hl Hi). unfold events_since. simpl.
    rewrite drop_all. by intros ?%elem_of_nil. }
  unfold setup. exec1. rewrite Hi.
  do 5 (case_call;
        [|unfold events_since; simpl; rewrite ?trace_app_cons, drop_app_length;
          pick_event]).
  unfold mret, M_ret, events_since. simpl.
  rewrite ?trace_app_cons, drop_app_length. pick_event.
Qed.

(** ** The checkpoint folder *)

(** C9: the constructor makes a new step whose folder is the argument given,
    or ['tensorflow_ckpts'] when the argument is [None] or left out; whatever
    operations run afterwards, returning or raising, the step keeps that
    folder; and [setup] on the step binds every checkpoint manager it
    constructs to that folder with [max_to_keep=3], which it does construct
    when the step is uninitialized and the calls before it return. *)
Theorem checkpoint_folder_default_and_use
    (cm cl co : callable) (folder : option string) (σ : State) (ops : list Op) :
  ∃ self σ0 a1,
    Tensorflow2ModelStep cm cl co folder σ = (Ret self, σ0) ∧
    store σ !! self = None ∧
    store (run_ops ops σ0) !! self = Some a1 ∧
    tf_model_checkpoint_folder a1
      = match folder with None => "tensorflow_ckpts" | Some d => d end ∧
    (∀ c d k,
       EvCheckpointManager c d k
         ∈ events_since (run_ops ops σ0) (setup self (run_ops ops σ0)).2 →
       d = match folder with None => "tensorflow_ckpts" | Some d => d end ∧ k = 3%Z) ∧
    (∀ opt net step ckpt manager w',
       is_initialized a1 = false →
       setup_calls_return a1 self (store (run_ops ops σ0)) (world (run_ops ops σ0))
         opt net step ckpt manager w' →
       EvCheckpointManager (Some ckpt)
           (match folder with None => "tensorflow_ckpts" | Some d => d end) 3
         ∈ events_since (run_ops ops σ0) (setup self (run_ops ops σ0)).2).
Proof.
  pose proof (Tensorflow2ModelStep_run cm cl co folder σ) as Hnew.
  set (self := fresh (dom (store σ))) in *.
  set (σ0 := with_store _ σ) in *.
  assert (∃ a0, store σ0 !! self = Some a0 ∧
                tf_model_checkpoint_folder a0
                = match folder with None => "tensorflow_ckpts" | Some d => d end)
    as (a0 & Hl0 & Hf0).
  { eexists. split; [apply lookup_insert_eq|done]. }
  destruct (run_ops_continues ops σ0) as [_ Hkept].
  destruct (Hkept self a0 Hl0) as (a1 & Hl1 & Hf1).
  exists self, σ0, a1. split; [exact Hnew|]. split; [apply alloc_fresh|].
  split; [exact Hl1|]. split; [congruence|]. split.
  - intros c d k Hin.
    destruct (setup_manager_events _ _ _ _ _ _ Hl1 Hin) as [-> ->].
    split; [congruence|done].
  - intros opt net step ckpt manager w' Hi Hcalls.
    rewrite (setup_uninitialized_run _ _ _ _ _ _ _ _ _ Hl1 Hi Hcalls).
    unfold events_since, setup_events. simpl. rewrite drop_app_length.
    rewrite <- Hf0, <- Hf1. rewrite !elem_of_cons. auto 10.
Qed.

(** ** fit *)

Lemma finally_run {A} (body : M A) tape σ r σ1 :
  body σ = (r, σ1) →
  finally body tape σ
  = (r, {| store := store σ1; world := tape_exit tape (world σ1);
           trace := trace σ1 ++ [EvTapeExit tape] |}).
Proof. intros Hb. unfold finally. by rewrite Hb. Qed.

(** C7: on a step holding a model and an optimizer, when the calls return,
    [fit] converts both arguments, opens the tape, runs the model and the
    loss factory inside it and stores the loss, leaves the tape, and only
    then asks the tape for the gradients of that loss with respect to the
    model's trainable variables and makes one [apply_gradients] call on the
    gradients zipped with the variables; it makes no other call, returns the
    step it was called on, and changes no attribute but [loss]. *)
Theorem fit_one_training_step (self : loc) (a : Adapter) (σ : State)
    (data_inputs expected_outputs : pyval Data) (net opt : obj)
    (x y tape output : obj) (l : option obj) (sources : list obj)
    (grads : list (option obj)) (vars : list obj) (w' : World) :
  store σ !! self = Some a →
  model a = Some net →
  optimizer a = Some opt →
  fit_calls_return a self (store σ) (world σ) data_inputs expected_outputs
    net opt x y tape output l sources grads vars w' →
  fit self data_inputs expected_outputs σ
  = (Ret self,
     {| store := <[self := set_loss l a]> (store σ);
        world := w';
        trace := trace σ ++
          [ EvConvertToTensor data_inputs;
            EvConvertToTensor expected_outputs;
            EvGradientTape;
            EvCall net x;
            EvLoss (create_loss a) self y output;
            EvTapeExit tape;
            EvTrainableVariables net;
            EvGradient tape l sources;
            EvTrainableVariables net;
            EvApplyGradients opt (zip grads vars) ] |}).
Proof.
  intros Hl Hnet Hopt (w1 & w2 & w3 & w4 & w5 & w6 & w7 & w8 &
    H1 & H2 & H3 & H4 & H5 & H6 & H7 & H8 & H9).
  unfold fit. exec.
  erewrite bind_ret_run.
  2:{ apply finally_run. exec1. rewrite Hnet. exec. reflexivity. }
  fields. exec. rewrite Hopt, Hnet. exec. rewrite Hnet. exec.
  unfold mret, M_ret. by rewrite !trace_app_cons.
Qed.

(** C10: [fit] has no guard on its target.  Called with the target left
    at its default [None], once the inputs are converted the next call is
    the conversion of [None] itself, before anything else (the tape, the
    forward pass); no other target is put in its place.  When that
    conversion raises, [fit] raises the same exception, having made only
    those two calls and changed no attribute.  This holds for every step
    reference and every state. *)
Theorem fit_passes_none_target (self : loc) (data_inputs : pyval Data)
    (σ : State) (x : obj) (w1 : World) :
  tf_convert_to_tensor data_inputs (world σ) = (Ret x, w1) →
  (∃ rest,
     trace (fit_default self data_inputs σ).2
     = trace σ ++ EvConvertToTensor data_inputs :: EvConvertToTensor PyNone :: rest) ∧
  (∀ e w2,
     tf_convert_to_tensor PyNone w1 = (Raise e, w2) →
     fit_default self data_inputs σ
     = (Raise (Raised e),
        {| store := store σ; world := w2;
           trace := trace σ ++
             [EvConvertToTensor data_inputs; EvConvertToTensor PyNone] |})).
Proof.
  intros Hx. unfold fit_default, fit. exec1. split.
  - case_call.
    + match goal with
      | |- context [trace (?m ?σ2).2] =>
          assert (respects continues m) as Hm by continues_tac;
          destruct (Hm σ2) as [[rest Hrest] _]
      end.
      exists rest. rewrite Hrest. simpl. by rewrite !trace_app_cons.
    + exists []. simpl. by rewrite !trace_app_cons.
  - intros e w2 Hy. exec_raise. by rewrite !trace_app_cons.
Qed.

(** ** save_step and load_step *)

(** C1: on a step whose flag is set and which holds a checkpoint manager,
    when the manager's [save] returns, [save_step] makes that one call, then
    runs [strip] on the step, and returns the same step; afterwards the
    step's model, optimizer, checkpoint and checkpoint manager are [None]
    and its flag is still set. *)
Theorem save_step_saves_then_strips (step : loc) (context : ExecutionContext)
    (a : Adapter) (manager : obj) (σ : State) (path : string) (w' : World) :
  store σ !! step = Some a →
  is_initialized a = true →
  checkpoint_manager a = Some manager →
  manager_save manager (world σ) = (Ret path, w') →
  ∃ a',
    save_step step context σ
    = (Ret step, {| store := <[step := a']> (store σ); world := w';
                    trace := trace σ ++ [EvSave manager] |}) ∧
    save_step step context σ
    = (strip step ;; mret step)
        {| store := store σ; world := w'; trace := trace σ ++ [EvSave manager] |} ∧
    model a' = None ∧ optimizer a' = None ∧
    checkpoint a' = None ∧ checkpoint_manager a' = None ∧
    is_initialized a' = true.
Proof.
  intros Hl Hi Hm Hsave. exists (after_strip a).
  assert (save_step step context σ
          = (strip step ;; mret step)
              {| store := store σ; world := w'; trace := trace σ ++ [EvSave manager] |})
    as Hrun.
  { unfold save_step. exec1. rewrite Hm. exec. reflexivity. }
  split; [|split; [exact Hrun|by repeat split]].
  rewrite Hrun. erewrite bind_ret_run by (by apply strip_run). reflexivity.
Qed.

(** C2: on every step, whatever its flag, when the calls return,
    [load_step] clears the flag, so that [setup] runs in full (optimizer
    factory, model factory, step counter, checkpoint, checkpoint manager, all
    on the step with its flag clear), then reads the manager's latest
    checkpoint and restores the new checkpoint object from it; it returns
    the same step, now holding the new objects with its flag set. *)
Theorem load_step_rebuilds_then_restores (step : loc) (context : ExecutionContext)
    (a : Adapter) (σ : State) (opt net : option obj) (counter ckpt manager : obj)
    (w1 : World) (latest : option string) (w2 w3 : World) :
  store σ !! step = Some a →
  setup_calls_return (set_is_initialized false a) step
    (<[step := set_is_initialized false a]> (store σ)) (world σ)
    opt net counter ckpt manager w1 →
  manager_latest_checkpoint manager w1 = (Ret latest, w2) →
  checkpoint_restore ckpt latest w2 = (Ret tt, w3) →
  ∃ a',
    load_step step context σ
    = (Ret step,
       {| store := <[step := a']> (store σ);
          world := w3;
          trace := trace σ ++
            [ EvFactory (create_optimizer a) step;
              EvFactory (create_model a) step;
              EvVariable 1;
              EvCheckpoint counter opt net;
              EvCheckpointManager (Some ckpt) (tf_model_checkpoint_folder a) 3;
              EvLatestCheckpoint manager;
              EvRestore ckpt latest ] |}) ∧
    optimizer a' = opt ∧ model a' = net ∧
    checkpoint a' = Some ckpt ∧ checkpoint_manager a' = Some manager ∧
    is_initialized a' = true.
Proof.
  intros Hl Hcalls Hlatest Hrestore.
  exists (after_setup a opt net ckpt manager).
  split; [|by repeat split].
  unfold load_step. exec1.
  erewrite bind_ret_run.
  2:{ eapply setup_uninitialized_run; fields;
        [apply lookup_insert_eq | reflexivity | exact Hcalls]. }
  fields. exec.
  unfold mret, M_ret, setup_events. fields.
  by rewrite !insert_insert_eq, <- !app_assoc.
Qed.

(** ** The flag and the references *)

#[local] Instance references_kept_preorder : PreOrder references_kept.
Proof.
  split.
  - intros σ l a Hl. exists a. by repeat split.
  - intros σ1 σ2 σ3 H12 H23 l a3 Hl3.
    destruct (H23 l a3 Hl3) as (a2 & Hl2 & Hi2 & Hm2 & Ho2 & Hc2 & Hg2).
    destruct (H12 l a2 Hl2) as (a1 & Hl1 & Hi1 & Hm1 & Ho1 & Hc1 & Hg1).
    exists a1. split; [done|]. repeat split; congruence.
Qed.

Lemma references_kept_call σ w ev :
  references_kept σ {| store := store σ; world := w; trace := trace σ ++ [ev] |}.
Proof. intros l a Hl. exists a. by repeat split. Qed.

Lemma references_kept_assign f self σ a :
  (∀ a, same_references a (f a)) →
  store σ !! self = Some a →
  references_kept σ (with_store (<[self := f a]> (store σ)) σ).
Proof.
  intros Hf Hl l b. simpl. destruct (decide (self = l)) as [<-|Hne].
  - rewrite lookup_insert_eq. intros [= <-]. eauto.
  - rewrite lookup_insert_ne by done. intros Hb. exists b. by repeat split.
Qed.

Lemma references_kept_set_loss v self σ a :
  store σ !! self = Some a →
  references_kept σ (with_store (<[self := set_loss v a]> (store σ)) σ).
Proof. apply references_kept_assign. by repeat split. Qed.

Ltac references_tac :=
  respects_with references_kept_call references_kept_set_loss.

Lemma fit_references_kept self x y : respects references_kept (fit self x y).
Proof.
  unfold fit. references_tac.
Qed.

Lemma transform_references_kept self x : respects references_kept (transform self x).
Proof. unfold transform. references_tac. Qed.

Lemma references_kept_invariant σ σ' :
  references_kept σ σ' → references_imply_flag σ → references_imply_flag σ'.
Proof.
  intros Hk Hinv l a' Hl' Href.
  destruct (Hk l a' Hl') as (a & Hl & Hi & Hm & Ho & Hc & Hg).
  rewrite Hi. apply (Hinv l a Hl).
  unfold holds_reference in *. by rewrite <- Hm, <- Ho, <- Hc, <- Hg.
Qed.

Lemma insert_invariant self a' (σ σ' : State) :
  references_imply_flag σ →
  (holds_reference a' → is_initialized a' = true) →
  store σ' = <[self := a']> (store σ) →
  references_imply_flag σ'.
Proof.
  intros Hinv Ha' Hs l b. rewrite Hs.
  destruct (decide (self = l)) as [<-|Hne].
  - rewrite lookup_insert_eq. by intros [= <-].
  - rewrite lookup_insert_ne by done. apply Hinv.
Qed.

Lemma ret_tt_inv {A} (m : M A) σ σ' :
  (m ;; mret tt) σ = (Ret tt, σ') → ∃ r, m σ = (Ret r, σ').
Proof.
  intros (r & σ1 & Hm & Hr)%bind_inv. injection Hr as <-. eauto.
Qed.

Lemma setup_invariant self σ r σ' :
  references_imply_flag σ → setup self σ = (Ret r, σ') → references_imply_flag σ'.
Proof.
  intros Hinv (_ & a & Hl & [[_ ->] | (_ & opt & net & step & ckpt & manager & w' & _ & ->)])%setup_ret_inv;
    [done|].
  eapply insert_invariant; [exact Hinv| |reflexivity]. done.
Qed.

Lemma strip_invariant self σ r σ' :
  references_imply_flag σ → strip self σ = (Ret r, σ') → references_imply_flag σ'.
Proof.
  intros Hinv. destruct (store σ !! self) as [a|] eqn:Hl.
  - rewrite (strip_run _ _ _ Hl). intros [= _ <-].
    eapply insert_invariant; [done| |done].
    intros [H|[H|[H|H]]]; by destruct H.
  - unfold strip. erewrite bind_raise_run; [discriminate|].
    unfold setattr. by rewrite Hl.
Qed.

Lemma save_step_invariant step ctx σ r σ' :
  references_imply_flag σ → save_step step ctx σ = (Ret r, σ') →
  references_imply_flag σ'.
Proof.
  intros Hinv. unfold save_step.
  destruct (store σ !! step) as [a|] eqn:Hl.
  2:{ erewrite bind_raise_run; [discriminate|]. unfold getattr. by rewrite Hl. }
  exec1. destruct (checkpoint_manager a) as [manager|]; [|discriminate].
  exec1. case_call; [|discriminate].
  intros (? & σ1 & Hs & Hr)%bind_inv. injection Hr as <- <-.
  eapply strip_invariant; [|exact Hs]. intros l b. apply Hinv.
Qed.

Lemma load_step_invariant step ctx σ r σ' :
  references_imply_flag σ → load_step step ctx σ = (Ret r, σ') →
  references_imply_flag σ'.
Proof.
  intros Hinv. unfold load_step.
  destruct (store σ !! step) as [a|] eqn:Hl.
  2:{ erewrite bind_raise_run; [discriminate|]. unfold setattr. by rewrite Hl. }
  exec1.
  intros (? & σ2 & Hs & Htail)%bind_inv.
  apply setup_ret_inv in Hs as (_ & a1 & Hl1 & Hs). revert Hl1. fields.
  rewrite lookup_insert_eq. intros [= <-].
  destruct Hs as [[Hi _] | (_ & opt & net & counter & ckpt & manager & w' & _ & ->)];
    [discriminate|].
  revert Htail. exec.
  do 2 (case_call; [|discriminate]).
  unfold mret, M_ret. intros [= _ <-].
  eapply insert_invariant; [exact Hinv| |simpl; by rewrite insert_insert_eq].
  done.
Qed.

Lemma run_op_invariant o σ σ' :
  references_imply_flag σ → run_op o σ = (Ret tt, σ') → references_imply_flag σ'.
Proof.
  intros Hinv. destruct o; cbn [run_op].
  - intros [r Hr]%ret_tt_inv. rewrite Tensorflow2ModelStep_run in Hr.
    injection Hr as _ <-. eapply insert_invariant; [exact Hinv| |done].
    intros [H|[H|[H|H]]]; by destruct H.
  - intros [r Hr]%ret_tt_inv. by eapply setup_invariant.
  - by apply strip_invariant.
  - intros [r Hr]%ret_tt_inv.
    eapply references_kept_invariant; [|exact Hinv].
    pose proof (fit_references_kept self data_inputs expected_outputs σ) as Hk.
    by rewrite Hr in Hk.
  - intros [r Hr]%ret_tt_inv.
    eapply references_kept_invariant; [|exact Hinv].
    pose proof (transform_references_kept self data_inputs σ) as Hk.
    by rewrite Hr in Hk.
  - intros [r Hr]%ret_tt_inv. by eapply save_step_invariant.
  - intros [r Hr]%ret_tt_inv. by eapply load_step_invariant.
  - intros [r Hr]%ret_tt_inv. by injection Hr as _ <-.
Qed.

(** C6, as the operations keep it: in every state reached from an empty
    store by public operations that returned, a step that holds a model, an
    optimizer, a checkpoint or a checkpoint manager has its initialization
    flag set.  The converse is not kept: [strip] and [save_step] clear the
    references and leave the flag. *)
Theorem references_only_when_flag_set (σ : State) (l : loc) (a : Adapter) :
  reachable σ →
  store σ !! l = Some a →
  holds_reference a →
  is_initialized a = true.
Proof.
  intros Hreach. revert l a.
  change (references_imply_flag σ).
  induction Hreach as [w|σ o σ' _ IH Hrun].
  - intros l a Hl. unfold initial in Hl. cbn [store] in Hl.
    by rewrite lookup_empty in Hl.
  - by eapply run_op_invariant.
Qed.

(** ** can_load *)

(** C8: [can_load] returns [True] for every step reference, every context
    and every state, whether the step is initialized, stripped, never set up
    or not there at all; it changes nothing and calls nothing. *)
Theorem can_load_always_true (step : loc) (context : ExecutionContext) (σ : State) :
  can_load step context σ = (Ret true, σ).
Proof. reflexivity. Qed.

(** ** transform *)

Lemma bind_raise_now {A B} e (k : A → M B) σ : (raise e ≫= k) σ = (Raise e, σ).
Proof. reflexivity. Qed.

Lemma getattr_missing self σ :
  store σ !! self = None → getattr self σ = (Raise NoSuchObject, σ).
Proof. intros Hl. unfold getattr. by rewrite Hl. Qed.

Lemma setattr_missing self f σ :
  store σ !! self = None → setattr self f σ = (Raise NoSuchObject, σ).
Proof. intros Hl. unfold setattr. by rewrite Hl. Qed.

Lemma events_since_app (σ : State) s w evs :
  events_since σ {| store := s; world := w; trace := trace σ ++ evs |} = evs.
Proof. unfold events_since. simpl. apply drop_app_length. Qed.

Lemma events_since_same (σ : State) s w :
  events_since σ {| store := s; world := w; trace := trace σ |} = [].
Proof. unfold events_since. simpl. apply drop_all. Qed.

(** X1: on a step holding a model, when the three calls return, [transform]
    converts the input, runs the model on the tensor, reads the result with
    [numpy()] and returns it; it makes no other call and assigns nothing. *)
Theorem transform_forward_pass (self : loc) (a : Adapter) (σ : State)
    (data_inputs : pyval Data) (net x output : obj) (d : Data) (w1 w2 w3 : World) :
  store σ !! self = Some a →
  model a = Some net →
  tf_convert_to_tensor data_inputs (world σ) = (Ret x, w1) →
  model_call net x w1 = (Ret output, w2) →
  tensor_numpy output w2 = (Ret d, w3) →
  transform self data_inputs σ
  = (Ret d,
     {| store := store σ; world := w3;
        trace := trace σ ++
          [EvConvertToTensor data_inputs; EvCall net x; EvNumpy output] |}).
Proof.
  intros Hl Hnet Hx Hcall Hnumpy. unfold transform. exec. rewrite Hnet. exec.
  erewrite external_ret by (fields; eassumption).
  fields. by rewrite !trace_app_cons.
Qed.


(** X3: whatever happens, returning or raising, [transform] assigns no
    attribute of any step, and the only calls it makes are conversions,
    forward passes and [numpy()] reads: no gradient, no optimizer step, no
    checkpoint call, no factory. *)
Theorem transform_reads_only (self : loc) (data_inputs : pyval Data) (σ : State) :
  store (transform self data_inputs σ).2 = store σ ∧
  forallb is_inference_event (events_since σ (transform self data_inputs σ).2) = true.
Proof.
  unfold transform.
  destruct (store σ !! self) as [a|] eqn:Hl.
  2:{ erewrite bind_raise_run by (by apply getattr_missing).
      split; [done|]. simpl. destruct σ. by rewrite events_since_same. }
  exec1. case_call.
  2:{ split; [done|]. simpl. by rewrite events_since_app. }
  destruct (model a) as [net|]; fields.
  2:{ rewrite bind_raise_now. split; [done|]. simpl. by rewrite events_since_app. }
  exec1. case_call.
  2:{ split; [done|]. simpl. by rewrite !trace_app_cons, events_since_app. }
  case_call; split; try done; simpl; by rewrite !trace_app_cons, events_since_app.
Qed.

(** ** save_step outside the lifecycle *)

(** X4: on a step that holds no checkpoint manager (never set up, stripped
    or already saved), [save_step] faults on the missing manager at once: no
    checkpoint is written, [strip] is not run, and nothing at all changes. *)
Theorem save_step_without_manager (step : loc) (context : ExecutionContext)
    (a : Adapter) (σ : State) :
  store σ !! step = Some a →
  checkpoint_manager a = None →
  save_step step context σ = (Raise (NullFault "checkpoint_manager"), σ).
Proof.
  intros Hl Hm. unfold save_step. exec1. rewrite Hm. fields.
  apply bind_raise_now.
Qed.

(** X5: when the manager's [save] raises, [save_step] raises the same
    exception and does not strip the step: the model, the optimizer, the
    checkpoint and the manager stay in place. *)
Theorem save_step_save_raises (step : loc) (context : ExecutionContext)
    (a : Adapter) (manager : obj) (σ : State) (e : Exn) (w' : World) :
  store σ !! step = Some a →
  checkpoint_manager a = Some manager →
  manager_save manager (world σ) = (Raise e, w') →
  save_step step context σ
  = (Raise (Raised e),
     {| store := store σ; world := w'; trace := trace σ ++ [EvSave manager] |}).
Proof.
  intros Hl Hm Hsave. unfold save_step. exec1. rewrite Hm. exec1.
  by exec_raise.
Qed.

(** A run of [save_step] that returns found a manager, saved, and stripped. *)
Lemma save_step_ret_inv step ctx σ r σ' :
  save_step step ctx σ = (Ret r, σ') →
  r = step ∧ ∃ a manager path w',
    store σ !! step = Some a ∧ checkpoint_manager a = Some manager ∧
    manager_save manager (world σ) = (Ret path, w') ∧
    σ' = {| store := <[step := after_strip a]> (store σ); world := w';
            trace := trace σ ++ [EvSave manager] |}.
Proof.
  unfold save_step. destruct (store σ !! step) as [a|] eqn:Hl.
  2:{ erewrite bind_raise_run by (by apply getattr_missing). discriminate. }
  exec1. destruct (checkpoint_manager a) as [manager|] eqn:Hm; fields;
    [|rewrite bind_raise_now; discriminate].
  exec1. case_call; [|discriminate].
  erewrite bind_ret_run by (apply strip_run; lookup_self).
  unfold mret, M_ret. fields. intros [= <- <-]. split; [done|].
  exists a, manager. eauto 10.
Qed.

(** X6: a step cannot be saved twice in a row.  After a [save_step] that
    returned, a second [save_step] on the same step faults on the missing
    manager, writes no checkpoint and changes nothing. *)
Theorem save_step_twice_faults (step : loc) (context context' : ExecutionContext)
    (σ σ' : State) (r : loc) :
  save_step step context σ = (Ret r, σ') →
  save_step step context' σ' = (Raise (NullFault "checkpoint_manager"), σ').
Proof.
  intros (_ & a & manager & path & w' & Hl & Hm & Hsave & ->)%save_step_ret_inv.
  apply save_step_without_manager with (after_strip a); [apply lookup_insert_eq|done].
Qed.

(** X7: [setup] does not bring a saved step back.  After a [save_step] that
    returned on a step whose flag was set, [setup] returns at once and
    changes nothing, so the step still holds none of its four objects; only
    [load_step], which clears the flag first, rebuilds them. *)
Theorem setup_after_save_step_is_noop (step : loc) (context : ExecutionContext)
    (a : Adapter) (σ σ' : State) (r : loc) :
  store σ !! step = Some a →
  is_initialized a = true →
  save_step step context σ = (Ret r, σ') →
  setup step σ' = (Ret step, σ') ∧
  ∃ a', store σ' !! step = Some a' ∧
        model a' = None ∧ optimizer a' = None ∧
        checkpoint a' = None ∧ checkpoint_manager a' = None.
Proof.
  intros Hl Hi (_ & a0 & manager & path & w' & Hl0 & Hm & Hsave & ->)%save_step_ret_inv.
  assert (a0 = a) as -> by congruence.
  split.
  - apply setup_initialized_run with (after_strip a); [apply lookup_insert_eq|done].
  - exists (after_strip a). split; [apply lookup_insert_eq|by repeat split].
Qed.

(** ** strip, again *)

(** X8: [strip] is idempotent: run twice in a row it ends exactly as run
    once, on every state. *)
Theorem strip_idempotent (self : loc) (σ : State) :
  (strip self ;; strip self) σ = strip self σ.
Proof.
  destruct (store σ !! self) as [a|] eqn:Hl.
  - erewrite bind_ret_run by (by apply strip_run).
    rewrite (strip_run _ _ _ Hl).
    erewrite strip_run by (fields; apply lookup_insert_eq).
    unfold with_store. fields. by rewrite insert_insert_eq.
  - assert (strip self σ = (Raise NoSuchObject, σ)) as Hs.
    { unfold strip. by erewrite bind_raise_run by (by apply setattr_missing). }
    by erewrite bind_raise_run by exact Hs.
Qed.

(** ** fit when something is missing or fails *)

(** X9: on a step that holds no model, once both arguments are converted and
    the tape is opened, [fit] faults on the missing model inside the tape,
    leaves the tape, and raises: no forward pass, no loss, no gradient, and
    no attribute assigned. *)
Theorem fit_without_model (self : loc) (a : Adapter) (σ : State)
    (data_inputs expected_outputs : pyval Data) (x y tape : obj) (w1 w2 w3 : World) :
  store σ !! self = Some a →
  model a = None →
  tf_convert_to_tensor data_inputs (world σ) = (Ret x, w1) →
  tf_convert_to_tensor expected_outputs w1 = (Ret y, w2) →
  tf_GradientTape w2 = (Ret tape, w3) →
  fit self data_inputs expected_outputs σ
  = (Raise (NullFault "model"),
     {| store := store σ; world := tape_exit tape w3;
        trace := trace σ ++
          [ EvConvertToTensor data_inputs; EvConvertToTensor expected_outputs;
            EvGradientTape; EvTapeExit tape ] |}).
Proof.
  intros Hl Hnet Hx Hy Htape. unfold fit. exec.
  erewrite bind_raise_run.
  2:{ apply finally_run. exec1. rewrite Hnet. fields. apply bind_raise_now. }
  fields. by rewrite !trace_app_cons.
Qed.

#[local] Instance store_kept_preorder : PreOrder store_kept.
Proof.
  split; [done|]. intros σ1 σ2 σ3 H12 H23. unfold store_kept in *. congruence.
Qed.

Lemma store_kept_call σ w ev :
  store_kept σ {| store := store σ; world := w; trace := trace σ ++ [ev] |}.
Proof. done. Qed.

(** X10: [fit] stores the loss before it touches the optimizer.  On a step
    holding a model, once the forward pass and the loss factory have
    returned, the step's [loss] is the new loss whatever happens next: also
    when the optimizer is missing, or the gradient or the optimizer step
    raises.  No other attribute of any step is assigned. *)
Theorem fit_loss_survives_failure (self : loc) (a : Adapter) (σ : State)
    (data_inputs expected_outputs : pyval Data) (net x y tape output : obj)
    (l : option obj) (w1 w2 w3 w4 w5 : World) :
  store σ !! self = Some a →
  model a = Some net →
  tf_convert_to_tensor data_inputs (world σ) = (Ret x, w1) →
  tf_convert_to_tensor expected_outputs w1 = (Ret y, w2) →
  tf_GradientTape w2 = (Ret tape, w3) →
  model_call net x w3 = (Ret output, w4) →
  call_loss (create_loss a) self (store σ) y output w4 = (Ret l, w5) →
  store (fit self data_inputs expected_outputs σ).2 = <[self := set_loss l a]> (store σ).
Proof.
  intros Hl Hnet Hx Hy Htape Hcall Hloss. unfold fit. exec.
  erewrite bind_ret_run.
  2:{ apply finally_run. exec1. rewrite Hnet. exec. reflexivity. }
  fields.
  match goal with
  | |- store (?m ?σ5).2 = _ =>
      assert (respects store_kept m) as Hm
        by (respects_with store_kept_call store_kept_call);
      rewrite (Hm σ5)
  end.
  reflexivity.
Qed.

#[local] Instance only_loss_changes_preorder self : PreOrder (only_loss_changes self).
Proof.
  split.
  - intros σ. split; [done|by left].
  - intros σ1 σ2 σ3 [Ho12 Hs12] [Ho23 Hs23]. split.
    + intros l Hne. by rewrite Ho23, Ho12.
    + destruct Hs12 as [H12|(a & v & Ha & Hv)], Hs23 as [H23|(a2 & v2 & Ha2 & Hv2)].
      * left. congruence.
      * right. exists a2, v2. split; congruence.
      * right. exists a, v. split; congruence.
      * right. exists a, v2. split; [done|].
        rewrite Hv in Ha2. injection Ha2 as <-. exact Hv2.
Qed.

Lemma only_loss_changes_call self σ w ev :
  only_loss_changes self σ
    {| store := store σ; world := w; trace := trace σ ++ [ev] |}.
Proof. split; [done|by left]. Qed.

Lemma only_loss_changes_assign v self σ a :
  store σ !! self = Some a →
  only_loss_changes self σ (with_store (<[self := set_loss v a]> (store σ)) σ).
Proof.
  intros Hl. split.
  - intros l Hne. simpl. by rewrite lookup_insert_ne.
  - right. exists a, v. split; [done|]. simpl. apply lookup_insert_eq.
Qed.

(** X11: whatever happens, returning or raising, the only thing [fit]
    changes in the store is the [loss] of the step it is called on: every
    other step is untouched, no step is added or removed, and the step's
    flag, factories, folder, model, optimizer, checkpoint and manager stay as
    they were. *)
Theorem fit_changes_only_loss (self : loc)
    (data_inputs expected_outputs : pyval Data) (σ : State) :
  (∀ l, l ≠ self →
     store (fit self data_inputs expected_outputs σ).2 !! l = store σ !! l) ∧
  (store (fit self data_inputs expected_outputs σ).2 !! self = store σ !! self ∨
   ∃ a v, store σ !! self = Some a ∧
          store (fit self data_inputs expected_outputs σ).2 !! self
          = Some (set_loss v a)).
Proof.
  assert (respects (only_loss_changes self) (fit self data_inputs expected_outputs))
    as Hfit.
  { unfold fit.
    respects_with (only_loss_changes_call self)
                  (λ v, only_loss_changes_assign v self). }
  exact (Hfit σ).
Qed.

Lemma finally_then_exit {A B} (body : M A) (k : A → M B) tape σ :
  respects continues body → (∀ a, respects continues (k a)) →
  ∃ evs rest,
    trace ((finally body tape ≫= k) σ).2 = trace σ ++ evs ++ EvTapeExit tape :: rest.
Proof.
  intros Hbody Hk.
  destruct (body σ) as [r σ1] eqn:Hb.
  destruct (Hbody σ) as [[evs Hevs] _]. rewrite Hb in Hevs. simpl in Hevs.
  pose proof (finally_run body tape σ r σ1 Hb) as Hf.
  destruct r as [v|e].
  - erewrite bind_ret_run by exact Hf.
    match goal with
    | |- context [trace (k v ?σ2).2] => destruct (Hk v σ2) as [[rest Hrest] _]
    end.
    exists evs, rest. rewrite Hrest. simpl. rewrite Hevs.
    by rewrite <- !app_assoc.
  - erewrite bind_raise_run by exact Hf.
    exists evs, []. simpl. rewrite Hevs. by rewrite <- !app_assoc.
Qed.

(** X12: [fit] leaves the gradient tape on every path.  Once the tape is
    opened, the tape's exit is among the calls [fit] makes, whether the
    forward pass, the loss factory, the gradient or the optimizer step
    returns or raises, and whether or not the step holds a model. *)
Theorem fit_always_leaves_tape (self : loc)
    (data_inputs expected_outputs : pyval Data) (σ : State)
    (x y tape : obj) (w1 w2 w3 : World) :
  tf_convert_to_tensor data_inputs (world σ) = (Ret x, w1) →
  tf_convert_to_tensor expected_outputs w1 = (Ret y, w2) →
  tf_GradientTape w2 = (Ret tape, w3) →
  EvTapeExit tape ∈ events_since σ (fit self data_inputs expected_outputs σ).2.
Proof.
  intros Hx Hy Htape. unfold fit. exec.
  match goal with
  | |- context [(finally ?body tape ≫= ?k) ?σ3] =>
      destruct (finally_then_exit body k tape σ3) as (evs & rest & Htr);
        [continues_tac|intros ?; continues_tac|]
  end.
  unfold events_since. rewrite Htr. fields.
  rewrite !trace_app_cons, drop_app_length.
  rewrite !elem_of_cons, elem_of_app, elem_of_cons. auto 10.
Qed.

(** ** setup and load_step when a call raises *)

(** X13: [setup] is not all-or-nothing.  When the optimizer factory returns
    and the model factory raises, [setup] raises the same exception with the
    new optimizer already stored in the step and the flag still clear; no
    checkpoint object is constructed. *)
Theorem setup_model_factory_raises (self : loc) (a : Adapter) (σ : State)
    (opt : option obj) (e : Exn) (w1 w2 : World) :
  store σ !! self = Some a →
  is_initialized a = false →
  call_factory (create_optimizer a) self (store σ) (world σ) = (Ret opt, w1) →
  call_factory (create_model a) self (<[self := set_optimizer opt a]> (store σ)) w1
    = (Raise e, w2) →
  setup self σ
  = (Raise (Raised e),
     {| store := <[self := set_optimizer opt a]> (store σ);
        world := w2;
        trace := trace σ ++
          [EvFactory (create_optimizer a) self; EvFactory (create_model a) self] |}).
Proof.
  intros Hl Hi Hopt Hnet. unfold setup. exec1. rewrite Hi. exec.
  exec_raise. by rewrite !trace_app_cons.
Qed.

(** X14: the flag is set only by a [setup] that returns.  When [setup] raises
    on a step whose flag is clear, whichever call raised, the step is still
    there with its flag clear, so the next [setup] starts again from the
    optimizer factory. *)
Theorem setup_raise_leaves_flag_clear (self : loc) (a : Adapter) (σ σ' : State)
    (e : exn Exn) :
  store σ !! self = Some a →
  is_initialized a = false →
  setup self σ = (Raise e, σ') →
  ∃ a', store σ' !! self = Some a' ∧ is_initialized a' = false.
Proof.
  intros Hl Hi. unfold setup. exec1. rewrite Hi.
  do 5 (case_call;
        [|intros [= _ <-]; fields;
          first [ by eauto | eexists; split; [apply lookup_insert_eq|done] ]]).
  discriminate.
Qed.

(** When [setup] raises on an existing step, it is a call that raised. *)
Lemma setup_raise_is_raised self a σ e σ' :
  store σ !! self = Some a →
  setup self σ = (Raise e, σ') → ∃ x, e = Raised x.
Proof.
  intros Hl. destruct (is_initialized a) eqn:Hi.
  { by rewrite (setup_initialized_run _ _ _ Hl Hi). }
  unfold setup. exec1. rewrite Hi.
  do 5 (case_call; [|intros [= <- _]; by eexists]).
  discriminate.
Qed.

(** X15: when the restore raises (no checkpoint to read, say), [load_step]
    raises the same exception after [setup] has run in full: the step is
    left initialized, holding the freshly built model, optimizer, checkpoint
    and manager, with nothing restored into them. *)
Theorem load_step_restore_raises (step : loc) (context : ExecutionContext)
    (a : Adapter) (σ : State) (opt net : option obj) (counter ckpt manager : obj)
    (w1 : World) (latest : option string) (w2 : World) (e : Exn) (w3 : World) :
  store σ !! step = Some a →
  setup_calls_return (set_is_initialized false a) step
    (<[step := set_is_initialized false a]> (store σ)) (world σ)
    opt net counter ckpt manager w1 →
  manager_latest_checkpoint manager w1 = (Ret latest, w2) →
  checkpoint_restore ckpt latest w2 = (Raise e, w3) →
  ∃ a' σ',
    load_step step context σ = (Raise (Raised e), σ') ∧
    store σ' = <[step := a']> (store σ) ∧
    optimizer a' = opt ∧ model a' = net ∧
    checkpoint a' = Some ckpt ∧ checkpoint_manager a' = Some manager ∧
    is_initialized a' = true.
Proof.
  intros Hl Hcalls Hlatest Hrestore.
  exists (after_setup a opt net ckpt manager). eexists.
  split; [|split; [|by repeat split]].
  - unfold load_step. exec1.
    erewrite bind_ret_run.
    2:{ eapply setup_uninitialized_run; fields;
          [apply lookup_insert_eq | reflexivity | exact Hcalls]. }
    fields. exec. exec_raise. reflexivity.
  - fields. by rewrite !insert_insert_eq.
Qed.

(** X16: when the optimizer factory raises, [load_step] raises the same
    exception having only cleared the flag: the step keeps whatever objects
    it held, now with its flag clear, and no other call is made. *)
Theorem load_step_factory_raises (step : loc) (context : ExecutionContext)
    (a : Adapter) (σ : State) (e : Exn) (w1 : World) :
  store σ !! step = Some a →
  call_factory (create_optimizer a) step
    (<[step := set_is_initialized false a]> (store σ)) (world σ) = (Raise e, w1) →
  load_step step context σ
  = (Raise (Raised e),
     {| store := <[step := set_is_initialized false a]> (store σ);
        world := w1;
        trace := trace σ ++ [EvFactory (create_optimizer a) step] |}).
Proof.
  intros Hl Hopt. unfold load_step. exec1.
  erewrite bind_raise_run; [reflexivity|].
  unfold setup. exec1. by exec_raise.
Qed.

(** X17: on an existing step, [setup] and [load_step] never fault on a
    missing object: when either raises, the exception is one that a factory
    or TensorFlow raised.  ([load_step] reads the checkpoint and the manager
    only after a [setup] that has just stored them.) *)
Theorem setup_and_load_step_never_fault (step : loc) (context : ExecutionContext)
    (a : Adapter) (σ : State) :
  store σ !! step = Some a →
  (∀ e σ', setup step σ = (Raise e, σ') → ∃ x, e = Raised x) ∧
  (∀ e σ', load_step step context σ = (Raise e, σ') → ∃ x, e = Raised x).
Proof.
  intros Hl. split; [intros e σ'; by apply setup_raise_is_raised with a|].
  intros e σ'. unfold load_step. exec1.
  match goal with
  | |- context [(setup step ≫= _) ?σ1] =>
      destruct (setup step σ1) as [[r|e1] σ2] eqn:Hs
  end.
  - erewrite bind_ret_run by exact Hs.
    apply setup_ret_inv in Hs as (_ & a1 & Hl1 & Hs). revert Hl1. fields.
    rewrite lookup_insert_eq. intros [= <-].
    destruct Hs as [[Hi _] | (_ & opt & net & counter & ckpt & manager & w' & _ & ->)];
      [discriminate|].
    exec. do 2 (case_call; [|intros [= <- _]; by eexists]).
    discriminate.
  - erewrite bind_raise_run by exact Hs. intros [= <- _].
    eapply setup_raise_is_raised; [|exact Hs]. fields. apply lookup_insert_eq.
Qed.

(** X20: [load_step] does not look at the flag it finds.  On two states that
    differ only in the flag of the step, [load_step] makes the same calls
    and ends with the same outcome and the same state, on every path. *)
Theorem load_step_ignores_flag (step : loc) (context : ExecutionContext)
    (a : Adapter) (σ : State) (flag : bool) :
  store σ !! step = Some a →
  load_step step context
    {| store := <[step := set_is_initialized flag a]> (store σ);
       world := world σ; trace := trace σ |}
  = load_step step context σ.
Proof.
  intros Hl. unfold load_step.
  erewrite bind_ret_run by (apply setattr_run; lookup_self).
  erewrite (bind_ret_run _ _ σ) by (apply setattr_run; lookup_self).
  unfold with_store. fields. by rewrite insert_insert_eq.
Qed.

(** ** What the operations leave alone *)

#[local] Instance others_kept_preorder self : PreOrder (others_kept self).
Proof.
  split; [done|].
  intros σ1 σ2 σ3 H12 H23 l Hne. by rewrite H23, H12.
Qed.

Lemma others_kept_call self σ w ev :
  others_kept self σ {| store := store σ; world := w; trace := trace σ ++ [ev] |}.
Proof. done. Qed.

Lemma others_kept_assign f self σ a :
  store σ !! self = Some a →
  others_kept self σ (with_store (<[self := f a]> (store σ)) σ).
Proof. intros _ l Hne. simpl. by rewrite lookup_insert_ne. Qed.

Ltac others_tac self :=
  respects_with (others_kept_call self) (λ f, others_kept_assign f self).

Lemma setup_others_kept self : respects (others_kept self) (setup self).
Proof. unfold setup. others_tac self. Qed.

Lemma strip_others_kept self : respects (others_kept self) (strip self).
Proof. unfold strip. others_tac self. Qed.

Lemma fit_others_kept self x y : respects (others_kept self) (fit self x y).
Proof. unfold fit. others_tac self. Qed.

Lemma transform_others_kept self x : respects (others_kept self) (transform self x).
Proof. unfold transform. others_tac self. Qed.

Lemma save_step_others_kept step ctx : respects (others_kept step) (save_step step ctx).
Proof. unfold save_step. others_tac step. apply strip_others_kept. Qed.

Lemma load_step_others_kept step ctx : respects (others_kept step) (load_step step ctx).
Proof. unfold load_step. others_tac step. apply setup_others_kept. Qed.

(** X18: every public operation, returning or raising, changes at most the
    step it is called on (for the constructor, the new step it makes): every
    other step of the store is exactly as it was. *)
Theorem operation_changes_only_its_step (o : Op) (σ : State) (l : loc) :
  l ≠ op_target o σ →
  store (run_op o σ).2 !! l = store σ !! l.
Proof.
  intros Hne. revert l Hne. change (others_kept (op_target o σ) σ (run_op o σ).2).
  destruct o; cbn [run_op op_target].
  1:{ intros l Hne.
      erewrite bind_ret_run by apply Tensorflow2ModelStep_run.
      simpl. by rewrite lookup_insert_ne. }
  all: try (apply (respects_bind (others_kept _));
            [|intros ?; apply (respects_mret (others_kept _))]).
  - apply setup_others_kept.
  - apply strip_others_kept.
  - apply fit_others_kept.
  - apply transform_others_kept.
  - apply save_step_others_kept.
  - apply load_step_others_kept.
  - done.
Qed.

#[local] Instance config_kept_preorder : PreOrder config_kept.
Proof.
  split.
  - intros σ l a Hl. exists a. by repeat split.
  - intros σ1 σ2 σ3 H12 H23 l a Hl.
    destruct (H12 l a Hl) as (a2 & Hl2 & Hm2 & Hs2 & Ho2 & Hv2 & Hf2).
    destruct (H23 l a2 Hl2) as (a3 & Hl3 & Hm3 & Hs3 & Ho3 & Hv3 & Hf3).
    exists a3. split; [done|]. repeat split; congruence.
Qed.

Lemma config_kept_call σ w ev :
  config_kept σ {| store := store σ; world := w; trace := trace σ ++ [ev] |}.
Proof. intros l a Hl. exists a. by repeat split. Qed.

Lemma config_kept_assign f self σ a :
  (∀ a, same_config a (f a)) →
  store σ !! self = Some a →
  config_kept σ (with_store (<[self := f a]> (store σ)) σ).
Proof.
  intros Hf Hl l b Hb. simpl. destruct (decide (self = l)) as [<-|Hne].
  - exists (f a). rewrite lookup_insert_eq. split; [done|].
    assert (b = a) as -> by congruence. apply Hf.
  - exists b. rewrite lookup_insert_ne by done. by repeat split.
Qed.

Ltac config_tac := respects_with config_kept_call config_kept_assign.

Lemma setup_config_kept self : respects config_kept (setup self).
Proof. unfold setup. config_tac. Qed.

Lemma strip_config_kept self : respects config_kept (strip self).
Proof. unfold strip. config_tac. Qed.

Lemma fit_config_kept self x y : respects config_kept (fit self x y).
Proof. unfold fit. config_tac. Qed.

Lemma transform_config_kept self x : respects config_kept (transform self x).
Proof. unfold transform. config_tac. Qed.

Lemma save_step_config_kept step ctx : respects config_kept (save_step step ctx).
Proof. unfold save_step. config_tac. apply strip_config_kept. Qed.

Lemma load_step_config_kept step ctx : respects config_kept (load_step step ctx).
Proof. unfold load_step. config_tac. apply setup_config_kept. Qed.

Lemma run_op_config_kept o σ : config_kept σ (run_op o σ).2.
Proof.
  destruct o; cbn [run_op].
  1:{ intros l a Hl.
      erewrite bind_ret_run by apply Tensorflow2ModelStep_run.
      simpl. exists a. split; [|by repeat split].
      rewrite lookup_insert_ne; [done|]. intros <-. by rewrite alloc_fresh in Hl. }
  all: try (apply (respects_bind config_kept);
            [|intros ?; apply (respects_mret config_kept)]).
  - apply setup_config_kept.
  - apply strip_config_kept.
  - apply fit_config_kept.
  - apply transform_config_kept.
  - apply save_step_config_kept.
  - apply load_step_config_kept.
  - apply (respects_mret config_kept).
Qed.

(** X19: no operation reassigns a step's configuration or removes a step.
    Through any sequence of public operations, returning or raising, every
    step stays in the store with the model, loss and optimizer factories,
    the savers and the checkpoint folder it had: [load_step] rebuilds from
    the same factories [setup] used. *)
Theorem configuration_never_reassigned (ops : list Op) (σ : State)
    (l : loc) (a : Adapter) :
  store σ !! l = Some a →
  ∃ a', store (run_ops ops σ) !! l = Some a' ∧
        create_model a' = create_model a ∧ create_loss a' = create_loss a ∧
        create_optimizer a' = create_optimizer a ∧ savers a' = savers a ∧
        tf_model_checkpoint_folder a' = tf_model_checkpoint_folder a.
Proof.
  revert σ l a. change (∀ σ, config_kept σ (run_ops ops σ)).
  induction ops as [|o ops IH]; intros σ; simpl; [reflexivity|].
  etrans; [apply run_op_config_kept|apply IH].
Qed.

End Properties.

(** ** The methods run in the small environment *)

Lemma toy_setup_reachable : reachable toy_setup_state.
Proof.
  apply (reachable_step (E:=toy)
           (run_ops [@OpConstruct toy 1 2 3 None] toy_initial) (@OpSetup toy 1));
    [|vm_compute; reflexivity].
  apply (reachable_step (E:=toy) toy_initial (@OpConstruct toy 1 2 3 None));
    [|vm_compute; reflexivity].
  apply (reachable_initial (E:=toy)).
Defined.

Lemma toy_saved_reachable : reachable toy_saved_state.
Proof.
  apply (reachable_step (E:=toy) toy_setup_state (@OpSaveStep toy 1 tt));
    [|vm_compute; reflexivity].
  apply toy_setup_reachable.
Defined.

Lemma toy_setup_state_step : store toy_setup_state !! 1%positive = Some toy_live_step.
Proof. vm_compute. reflexivity. Defined.

Lemma toy_saved_state_step :
  store toy_saved_state !! 1%positive = Some (after_strip toy_live_step).
Proof. vm_compute. reflexivity. Defined.

(** C6 as stated fails: after construction, [setup] and [save_step], all of
    which return, the step has its flag set and none of the four
    references. *)
Lemma references_iff_flag_fails_after_save :
  reachable toy_saved_state ∧ ¬ references_iff_flag toy_saved_state.
Proof.
  split; [apply toy_saved_reachable|].
  intros Hiff.
  destruct (Hiff 1%positive _ toy_saved_state_step) as [_ Hlive].
  destruct (Hlive eq_refl) as [[? Hnet] _]. discriminate Hnet.
Qed.

Lemma references_only_when_flag_set_witness :
  reachable toy_setup_state ∧
  store toy_setup_state !! 1%positive = Some toy_live_step ∧
  holds_reference toy_live_step ∧
  is_initialized toy_live_step = true.
Proof.
  assert (holds_reference toy_live_step) as Href by (left; by eexists).
  split; [apply toy_setup_reachable|].
  split; [apply toy_setup_state_step|].
  split; [exact Href|].
  exact (references_only_when_flag_set (E:=toy) toy_setup_state 1 toy_live_step
           toy_setup_reachable toy_setup_state_step Href).
Defined.

Lemma save_step_saves_then_strips_witness :
  (store toy_setup_state !! 1%positive = Some toy_live_step ∧
   is_initialized toy_live_step = true ∧
   checkpoint_manager toy_live_step = Some 5%positive ∧
   @manager_save toy 5%positive (world toy_setup_state) = (Ret "ckpt", toy_world_saved)) ∧
  ∃ a',
    @save_step toy 1%positive tt toy_setup_state
    = (Ret 1%positive,
       @Build_State toy (<[1%positive := a']> (store toy_setup_state)) toy_world_saved
         (trace toy_setup_state ++ [@EvSave toy 5%positive])) ∧
    stripped a' ∧ is_initialized a' = true.
Proof.
  assert (@manager_save toy 5%positive (world toy_setup_state)
          = (Ret "ckpt", toy_world_saved)) as Hsave by reflexivity.
  split; [by repeat split; try apply toy_setup_state_step|].
  destruct (save_step_saves_then_strips (E:=toy) 1 tt toy_live_step 5 toy_setup_state
              "ckpt" toy_world_saved toy_setup_state_step eq_refl eq_refl Hsave)
    as (a' & Hrun & _ & Hm & Ho & Hc & Hg & Hi).
  exists a'. by repeat split.
Defined.

Lemma toy_setup_calls_return (a : Adapter) (s : gmap positive Adapter) (w : ToyWorld) :
  @setup_calls_return toy a 1%positive s w
    (Some (next_obj w)) (Some (Pos.succ (next_obj w)))
    (Pos.succ (Pos.succ (next_obj w)))
    (Pos.succ (Pos.succ (Pos.succ (next_obj w))))
    (Pos.succ (Pos.succ (Pos.succ (Pos.succ (next_obj w)))))
    {| next_obj := Pos.succ (Pos.succ (Pos.succ (Pos.succ (Pos.succ (next_obj w)))));
       saved := saved w |}.
Proof. do 4 eexists. repeat split. Defined.

Lemma load_step_rebuilds_then_restores_witness :
  store toy_saved_state !! 1%positive = Some (after_strip toy_live_step) ∧
  ∃ a',
    @load_step toy 1%positive tt toy_saved_state
    = (Ret 1%positive,
       @Build_State toy (<[1%positive := a']> (store toy_saved_state))
         {| next_obj := 11; saved := 1 |}
         (trace toy_saved_state ++
            [ @EvFactory toy 3 1; @EvFactory toy 1 1; @EvVariable toy 1;
              @EvCheckpoint toy 8 (Some 6%positive) (Some 7%positive);
              @EvCheckpointManager toy (Some 9%positive) "tensorflow_ckpts" 3;
              @EvLatestCheckpoint toy 10; @EvRestore toy 9 (Some "ckpt") ])) ∧
    optimizer a' = Some 6%positive ∧ model a' = Some 7%positive ∧
    checkpoint a' = Some 9%positive ∧ checkpoint_manager a' = Some 10%positive ∧
    is_initialized a' = true.
Proof.
  split; [apply toy_saved_state_step|].
  exact (load_step_rebuilds_then_restores (E:=toy) 1 tt (after_strip toy_live_step)
           toy_saved_state (Some 6%positive) (Some 7%positive) 8 9 10
           {| next_obj := 11; saved := 1 |} (Some "ckpt")
           {| next_obj := 11; saved := 1 |} {| next_obj := 11; saved := 1 |}
           toy_saved_state_step
           (toy_setup_calls_return _ _ toy_world_saved) eq_refl eq_refl).
Defined.

Lemma setup_idempotent_witness :
  (store toy_setup_state !! 1%positive = Some toy_live_step ∧
   is_initialized toy_live_step = true) ∧
  @setup toy 1%positive toy_setup_state = (Ret 1%positive, toy_setup_state) ∧
  (@setup toy 1%positive ;; @setup toy 1%positive) (toy_state toy_fresh_step)
  = @setup toy 1%positive (toy_state toy_fresh_step).
Proof.
  assert (store (toy_state toy_fresh_step) !! 1%positive = Some toy_fresh_step)
    as Hl by reflexivity.
  split; [split; [apply toy_setup_state_step|reflexivity]|].
  split.
  - exact (proj1 (setup_idempotent (E:=toy) 1 toy_live_step toy_setup_state
                    toy_setup_state_step) eq_refl).
  - exact (proj2 (setup_idempotent (E:=toy) 1 toy_fresh_step
                    (toy_state toy_fresh_step) Hl)).
Defined.

Lemma setup_builds_in_order_witness :
  (store (toy_state toy_fresh_step) !! 1%positive = Some toy_fresh_step ∧
   is_initialized toy_fresh_step = false) ∧
  ∃ a',
    @setup toy 1%positive (toy_state toy_fresh_step)
    = (Ret 1%positive,
       @Build_State toy (<[1%positive := a']> (store (toy_state toy_fresh_step)))
         toy_world_setup
         (trace (toy_state toy_fresh_step) ++
            [ @EvFactory toy 3 1; @EvFactory toy 1 1; @EvVariable toy 1;
              @EvCheckpoint toy 3 (Some 1%positive) (Some 2%positive);
              @EvCheckpointManager toy (Some 4%positive) "tensorflow_ckpts" 3 ])) ∧
    optimizer a' = Some 1%positive ∧ model a' = Some 2%positive ∧
    checkpoint a' = Some 4%positive ∧ checkpoint_manager a' = Some 5%positive ∧
    is_initialized a' = true.
Proof.
  assert (store (toy_state toy_fresh_step) !! 1%positive = Some toy_fresh_step)
    as Hl by reflexivity.
  split; [by split|].
  exact (setup_builds_in_order (E:=toy) 1 toy_fresh_step (toy_state toy_fresh_step)
           (Some 1%positive) (Some 2%positive) 3 4 5 toy_world_setup
           Hl eq_refl (toy_setup_calls_return _ _ toy_world)).
Defined.

Lemma strip_clears_references_witness :
  store toy_setup_state !! 1%positive = Some toy_live_step ∧
  ∃ a',
    @strip toy 1%positive toy_setup_state
    = (Ret tt,
       @Build_State toy (<[1%positive := a']> (store toy_setup_state))
         (world toy_setup_state) (trace toy_setup_state)) ∧
    stripped a' ∧ is_initialized a' = true ∧
    tf_model_checkpoint_folder a' = "tensorflow_ckpts".
Proof.
  split; [apply toy_setup_state_step|].
  destruct (strip_clears_references (E:=toy) 1 toy_live_step toy_setup_state
              toy_setup_state_step)
    as (a' & Hrun & Hm & Ho & Hc & Hg & Hi & _ & _ & _ & _ & Hf & _).
  exists a'. by repeat split.
Defined.

Lemma toy_fit_calls_return :
  @fit_calls_return toy toy_live_step 1%positive (store toy_setup_state)
    (world toy_setup_state) (PyData [1%Z]) (PyData [2%Z]) 2%positive 1%positive
    6%positive 7%positive 8%positive 9%positive (Some 10%positive)
    [3%positive; 4%positive] [Some 103%positive; Some 104%positive]
    [3%positive; 4%positive] {| next_obj := 11; saved := 0 |}.
Proof. do 8 eexists. repeat split. Defined.

Lemma fit_one_training_step_witness :
  (store toy_setup_state !! 1%positive = Some toy_live_step ∧
   model toy_live_step = Some 2%positive ∧
   optimizer toy_live_step = Some 1%positive) ∧
  @fit toy 1%positive (PyData [1%Z]) (PyData [2%Z]) toy_setup_state
  = (Ret 1%positive,
     @Build_State toy
       (<[1%positive := set_loss (Some 10%positive) toy_live_step]> (store toy_setup_state))
       {| next_obj := 11; saved := 0 |}
       (trace toy_setup_state ++
          [ @EvConvertToTensor toy (PyData [1%Z]);
            @EvConvertToTensor toy (PyData [2%Z]);
            @EvGradientTape toy;
            @EvCall toy 2 6;
            @EvLoss toy 2 1 7 9;
            @EvTapeExit toy 8;
            @EvTrainableVariables toy 2;
            @EvGradient toy 8 (Some 10%positive) [3%positive; 4%positive];
            @EvTrainableVariables toy 2;
            @EvApplyGradients toy 1
              [(Some 103%positive, 3%positive); (Some 104%positive, 4%positive)] ])).
Proof.
  split; [by repeat split; try apply toy_setup_state_step|].
  exact (fit_one_training_step (E:=toy) 1 toy_live_step toy_setup_state
           (PyData [1%Z]) (PyData [2%Z]) 2 1 6 7 8 9 (Some 10%positive)
           [3%positive; 4%positive] [Some 103%positive; Some 104%positive]
           [3%positive; 4%positive] {| next_obj := 11; saved := 0 |}
           toy_setup_state_step eq_refl eq_refl toy_fit_calls_return).
Defined.

Lemma fit_passes_none_target_witness :
  @tf_convert_to_tensor toy (PyData [1%Z]) (world toy_setup_state)
  = (Ret 6%positive, {| next_obj := 7; saved := 0 |}) ∧
  @fit_default toy 1%positive (PyData [1%Z]) toy_setup_state
  = (Raise (Raised "None values not supported."),
     @Build_State toy (store toy_setup_state) {| next_obj := 7; saved := 0 |}
       (trace toy_setup_state ++
          [ @EvConvertToTensor toy (PyData [1%Z]); @EvConvertToTensor toy PyNone ])).
Proof.
  assert (@tf_convert_to_tensor toy (PyData [1%Z]) (world toy_setup_state)
          = (Ret 6%positive, {| next_obj := 7; saved := 0 |})) as Hx by reflexivity.
  split; [exact Hx|].
  destruct (fit_passes_none_target (E:=toy) 1 (PyData [1%Z]) toy_setup_state 6
              {| next_obj := 7; saved := 0 |} Hx) as [_ Hraise].
  exact (Hraise "None values not supported." {| next_obj := 7; saved := 0 |} eq_refl).
Defined.

Lemma checkpoint_folder_default_and_use_witness :
  ∃ self σ0 a1,
    @Tensorflow2ModelStep toy 1 2 3 None toy_initial = (Ret self, σ0) ∧
    store (run_ops [@OpSetup toy 1; @OpSaveStep toy 1 tt] σ0) !! self = Some a1 ∧
    tf_model_checkpoint_folder a1 = "tensorflow_ckpts".
Proof.
  destruct (checkpoint_folder_default_and_use (E:=toy) 1 2 3 None toy_initial
              [@OpSetup toy 1; @OpSaveStep toy 1 tt])
    as (self & σ0 & a1 & Hnew & _ & Hl & Hf & _).
  exists self, σ0, a1. by repeat split.
Defined.

(** ** Uses outside the lifecycle

    Nothing guards [fit], [transform] and [save_step] against a step whose
    references are not there; the fault comes from the first use of the
    missing object. *)

Example fit_before_setup :
  (@fit toy 1%positive (PyData [1%Z]) (PyData [2%Z]) (toy_state toy_fresh_step)).1
  = Raise (NullFault "model").
Proof. vm_compute. reflexivity. Qed.

Example transform_before_setup :
  (@transform toy 1%positive (PyData [1%Z]) (toy_state toy_fresh_step)).1
  = Raise (NullFault "model").
Proof. vm_compute. reflexivity. Qed.

Example save_step_twice :
  (@save_step toy 1%positive tt toy_saved_state).1
  = Raise (NullFault "checkpoint_manager").
Proof. vm_compute. reflexivity. Qed.

Example setup_after_save_does_nothing :
  @setup toy 1%positive toy_saved_state = (Ret 1%positive, toy_saved_state).
Proof. vm_compute. reflexivity. Qed.

(** ** The further properties run in the small environments *)

Lemma transform_forward_pass_witness :
  (store toy_setup_state !! 1%positive = Some toy_live_step ∧
   model toy_live_step = Some 2%positive) ∧
  @transform toy 1%positive (PyData [5%Z]) toy_setup_state
  = (Ret [0%Z],
     @Build_State toy (store toy_setup_state) {| next_obj := 8; saved := 0 |}
       (trace toy_setup_state ++
          [ @EvConvertToTensor toy (PyData [5%Z]); @EvCall toy 2 6; @EvNumpy toy 7 ])).
Proof.
  split; [split; [apply toy_setup_state_step|reflexivity]|].
  exact (transform_forward_pass (E:=toy) 1 toy_live_step toy_setup_state
           (PyData [5%Z]) 2 6 7 [0%Z] {| next_obj := 7; saved := 0 |}
           {| next_obj := 8; saved := 0 |} {| next_obj := 8; saved := 0 |}
           toy_setup_state_step eq_refl eq_refl eq_refl eq_refl).
Defined.


Lemma save_step_without_manager_witness :
  (store toy_saved_state !! 1%positive = Some (after_strip toy_live_step) ∧
   checkpoint_manager (after_strip toy_live_step) = None) ∧
  @save_step toy 1%positive tt toy_saved_state
  = (Raise (NullFault "checkpoint_manager"), toy_saved_state).
Proof.
  split; [split; [apply toy_saved_state_step|reflexivity]|].
  exact (save_step_without_manager (E:=toy) 1 tt (after_strip toy_live_step)
           toy_saved_state toy_saved_state_step eq_refl).
Defined.

Lemma faulty_live_state_step :
  store (faulty_state toy_live_step) !! 1%positive = Some toy_live_step.
Proof. reflexivity. Defined.

Lemma save_step_save_raises_witness :
  (store (faulty_state toy_live_step) !! 1%positive = Some toy_live_step ∧
   checkpoint_manager toy_live_step = Some 5%positive ∧
   @manager_save toy_faulty 5%positive (world (faulty_state toy_live_step))
   = (Raise "disk full", toy_world)) ∧
  @save_step toy_faulty 1%positive tt (faulty_state toy_live_step)
  = (Raise (Raised "disk full"),
     @Build_State toy_faulty (store (faulty_state toy_live_step)) toy_world
       (trace (faulty_state toy_live_step) ++ [ @EvSave toy_faulty 5 ])).
Proof.
  split; [by repeat split|].
  exact (save_step_save_raises (E:=toy_faulty) 1 tt toy_live_step 5
           (faulty_state toy_live_step) "disk full" toy_world
           faulty_live_state_step eq_refl eq_refl).
Defined.

Lemma toy_save_step_returns :
  @save_step toy 1%positive tt toy_setup_state = (Ret 1%positive, toy_saved_state).
Proof. vm_compute. reflexivity. Defined.

Lemma save_step_twice_faults_witness :
  @save_step toy 1%positive tt toy_setup_state = (Ret 1%positive, toy_saved_state) ∧
  @save_step toy 1%positive tt toy_saved_state
  = (Raise (NullFault "checkpoint_manager"), toy_saved_state).
Proof.
  split; [apply toy_save_step_returns|].
  exact (save_step_twice_faults (E:=toy) 1 tt tt toy_setup_state toy_saved_state 1
           toy_save_step_returns).
Defined.

Lemma setup_after_save_step_is_noop_witness :
  (store toy_setup_state !! 1%positive = Some toy_live_step ∧
   is_initialized toy_live_step = true ∧
   @save_step toy 1%positive tt toy_setup_state = (Ret 1%positive, toy_saved_state)) ∧
  @setup toy 1%positive toy_saved_state = (Ret 1%positive, toy_saved_state).
Proof.
  split; [split; [apply toy_setup_state_step|split; [reflexivity|apply toy_save_step_returns]]|].
  exact (proj1 (setup_after_save_step_is_noop (E:=toy) 1 tt toy_live_step
                  toy_setup_state toy_saved_state 1
                  toy_setup_state_step eq_refl toy_save_step_returns)).
Defined.

Lemma fit_without_model_witness :
  (store (toy_state toy_fresh_step) !! 1%positive = Some toy_fresh_step ∧
   model toy_fresh_step = None) ∧
  @fit toy 1%positive (PyData [1%Z]) (PyData [2%Z]) (toy_state toy_fresh_step)
  = (Raise (NullFault "model"),
     @Build_State toy (store (toy_state toy_fresh_step)) {| next_obj := 4; saved := 0 |}
       (trace (toy_state toy_fresh_step) ++
          [ @EvConvertToTensor toy (PyData [1%Z]); @EvConvertToTensor toy (PyData [2%Z]);
            @EvGradientTape toy; @EvTapeExit toy 3 ])).
Proof.
  assert (store (toy_state toy_fresh_step) !! 1%positive = Some toy_fresh_step)
    as Hl by reflexivity.
  split; [by split|].
  exact (fit_without_model (E:=toy) 1 toy_fresh_step (toy_state toy_fresh_step)
           (PyData [1%Z]) (PyData [2%Z]) 1 2 3
           {| next_obj := 2; saved := 0 |} {| next_obj := 3; saved := 0 |}
           {| next_obj := 4; saved := 0 |} Hl eq_refl eq_refl eq_refl eq_refl).
Defined.

Lemma fit_loss_survives_failure_witness :
  (store (faulty_state toy_live_step) !! 1%positive = Some toy_live_step ∧
   model toy_live_step = Some 2%positive) ∧
  (@fit toy_faulty 1%positive (PyData [1%Z]) (PyData [2%Z]) (faulty_state toy_live_step)).1
  = Raise (Raised "no gradient") ∧
  store (@fit toy_faulty 1%positive (PyData [1%Z]) (PyData [2%Z])
           (faulty_state toy_live_step)).2
  = <[1%positive := set_loss (Some 5%positive) toy_live_step]>
      (store (faulty_state toy_live_step)).
Proof.
  split; [by split|]. split; [vm_compute; reflexivity|].
  exact (fit_loss_survives_failure (E:=toy_faulty) 1 toy_live_step
           (faulty_state toy_live_step) (PyData [1%Z]) (PyData [2%Z]) 2 1 2 3 4
           (Some 5%positive)
           {| next_obj := 2; saved := 0 |} {| next_obj := 3; saved := 0 |}
           {| next_obj := 4; saved := 0 |} {| next_obj := 5; saved := 0 |}
           {| next_obj := 6; saved := 0 |}
           faulty_live_state_step eq_refl eq_refl eq_refl eq_refl eq_refl eq_refl).
Defined.

Lemma fit_always_leaves_tape_witness :
  (@fit toy_faulty 1%positive (PyData [1%Z]) (PyData [2%Z]) (faulty_state toy_live_step)).1
  = Raise (Raised "no gradient") ∧
  @EvTapeExit toy_faulty 3
  ∈ events_since (faulty_state toy_live_step)
      (@fit toy_faulty 1%positive (PyData [1%Z]) (PyData [2%Z])
         (faulty_state toy_live_step)).2.
Proof.
  split; [vm_compute; reflexivity|].
  exact (fit_always_leaves_tape (E:=toy_faulty) 1 (PyData [1%Z]) (PyData [2%Z])
           (faulty_state toy_live_step) 1 2 3
           {| next_obj := 2; saved := 0 |} {| next_obj := 3; saved := 0 |}
           {| next_obj := 4; saved := 0 |} eq_refl eq_refl eq_refl).
Defined.

Lemma faulty_fresh_state_step :
  store (faulty_state faulty_fresh_step) !! 1%positive = Some faulty_fresh_step.
Proof. reflexivity. Defined.

Lemma setup_model_factory_raises_witness :
  (store (faulty_state faulty_fresh_step) !! 1%positive = Some faulty_fresh_step ∧
   is_initialized faulty_fresh_step = false) ∧
  @setup toy_faulty 1%positive (faulty_state faulty_fresh_step)
  = (Raise (Raised "factory failed"),
     @Build_State toy_faulty
       (<[1%positive := set_optimizer (Some 1%positive) faulty_fresh_step]>
          (store (faulty_state faulty_fresh_step)))
       {| next_obj := 2; saved := 0 |}
       (trace (faulty_state faulty_fresh_step) ++
          [ @EvFactory toy_faulty 3 1; @EvFactory toy_faulty 9 1 ])).
Proof.
  split; [by split|].
  exact (setup_model_factory_raises (E:=toy_faulty) 1 faulty_fresh_step
           (faulty_state faulty_fresh_step) (Some 1%positive) "factory failed"
           {| next_obj := 2; saved := 0 |} {| next_obj := 2; saved := 0 |}
           faulty_fresh_state_step eq_refl eq_refl eq_refl).
Defined.

Lemma faulty_setup_raises :
  @setup toy_faulty 1%positive (faulty_state faulty_fresh_step)
  = (Raise (Raised "factory failed"),
     (@setup toy_faulty 1%positive (faulty_state faulty_fresh_step)).2).
Proof. vm_compute. reflexivity. Defined.

Lemma setup_raise_leaves_flag_clear_witness :
  (store (faulty_state faulty_fresh_step) !! 1%positive = Some faulty_fresh_step ∧
   is_initialized faulty_fresh_step = false ∧
   (@setup toy_faulty 1%positive (faulty_state faulty_fresh_step)).1
   = Raise (Raised "factory failed")) ∧
  ∃ a', store (@setup toy_faulty 1%positive (faulty_state faulty_fresh_step)).2
          !! 1%positive = Some a' ∧
        is_initialized a' = false.
Proof.
  split; [split; [reflexivity|split; [reflexivity|vm_compute; reflexivity]]|].
  exact (setup_raise_leaves_flag_clear (E:=toy_faulty) 1 faulty_fresh_step
           (faulty_state faulty_fresh_step) _ (Raised "factory failed")
           faulty_fresh_state_step eq_refl faulty_setup_raises).
Defined.

Lemma faulty_fresh_ok_state_step :
  store (faulty_state toy_fresh_step) !! 1%positive = Some toy_fresh_step.
Proof. reflexivity. Defined.

Lemma faulty_setup_calls_return (a : Adapter) (s : gmap positive Adapter) :
  create_optimizer a = 3%positive → create_model a = 1%positive →
  @setup_calls_return toy_faulty a 1%positive s toy_world
    (Some 1%positive) (Some 2%positive) 3%positive 4%positive 5%positive
    toy_world_setup.
Proof.
  intros Ho Hm. unfold setup_calls_return. simpl. rewrite Ho, Hm.
  do 4 eexists. repeat split.
Defined.

Lemma load_step_restore_raises_witness :
  store (faulty_state toy_fresh_step) !! 1%positive = Some toy_fresh_step ∧
  ∃ a' σ',
    @load_step toy_faulty 1%positive tt (faulty_state toy_fresh_step)
    = (Raise (Raised "no checkpoint"), σ') ∧
    store σ' = <[1%positive := a']> (store (faulty_state toy_fresh_step)) ∧
    optimizer a' = Some 1%positive ∧ model a' = Some 2%positive ∧
    checkpoint a' = Some 4%positive ∧ checkpoint_manager a' = Some 5%positive ∧
    is_initialized a' = true.
Proof.
  split; [reflexivity|].
  exact (load_step_restore_raises (E:=toy_faulty) 1 tt toy_fresh_step
           (faulty_state toy_fresh_step) (Some 1%positive) (Some 2%positive) 3 4 5
           toy_world_setup None toy_world_setup "no checkpoint" toy_world_setup
           faulty_fresh_ok_state_step
           (faulty_setup_calls_return (set_is_initialized false toy_fresh_step) _
              eq_refl eq_refl)
           eq_refl eq_refl).
Defined.

Lemma faulty_broken_state_step :
  store (faulty_state faulty_live_step) !! 1%positive = Some faulty_live_step.
Proof. reflexivity. Defined.

Lemma load_step_factory_raises_witness :
  store (faulty_state faulty_live_step) !! 1%positive = Some faulty_live_step ∧
  @load_step toy_faulty 1%positive tt (faulty_state faulty_live_step)
  = (Raise (Raised "factory failed"),
     @Build_State toy_faulty
       (<[1%positive := set_is_initialized false faulty_live_step]>
          (store (faulty_state faulty_live_step)))
       toy_world
       (trace (faulty_state faulty_live_step) ++ [ @EvFactory toy_faulty 9 1 ])).
Proof.
  split; [reflexivity|].
  exact (load_step_factory_raises (E:=toy_faulty) 1 tt faulty_live_step
           (faulty_state faulty_live_step) "factory failed" toy_world
           faulty_broken_state_step eq_refl).
Defined.

Lemma setup_and_load_step_never_fault_witness :
  store (faulty_state faulty_fresh_step) !! 1%positive = Some faulty_fresh_step ∧
  ∃ x, Raised "factory failed" = @Raised (@Exn toy_faulty) x.
Proof.
  split; [reflexivity|].
  exact (proj1 (setup_and_load_step_never_fault (E:=toy_faulty) 1 tt faulty_fresh_step
                  (faulty_state faulty_fresh_step) faulty_fresh_state_step)
           (Raised "factory failed") _ faulty_setup_raises).
Defined.

Lemma operation_changes_only_its_step_witness :
  2%positive ≠ op_target (@OpSaveStep toy 1 tt) toy_two_steps ∧
  store (run_op (@OpSaveStep toy 1 tt) toy_two_steps).2 !! 2%positive
  = store toy_two_steps !! 2%positive.
Proof.
  assert (2%positive ≠ op_target (@OpSaveStep toy 1 tt) toy_two_steps)
    as Hne by discriminate.
  split; [exact Hne|].
  exact (operation_changes_only_its_step (E:=toy) (@OpSaveStep toy 1 tt)
           toy_two_steps 2 Hne).
Defined.

Lemma configuration_never_reassigned_witness :
  store toy_setup_state !! 1%positive = Some toy_live_step ∧
  ∃ a',
    store (run_ops [ @OpSaveStep toy 1 tt; @OpLoadStep toy 1 tt;
                     @OpFit toy 1 (PyData [1%Z]) PyNone ] toy_setup_state)
      !! 1%positive = Some a' ∧
    create_model a' = 1%positive ∧ create_loss a' = 2%positive ∧
    create_optimizer a' = 3%positive ∧ savers a' = [TensorflowV2StepSaver] ∧
    tf_model_checkpoint_folder a' = "tensorflow_ckpts".
Proof.
  split; [apply toy_setup_state_step|].
  exact (configuration_never_reassigned (E:=toy)
           [ @OpSaveStep toy 1 tt; @OpLoadStep toy 1 tt;
             @OpFit toy 1 (PyData [1%Z]) PyNone ]
           toy_setup_state 1 toy_live_step toy_setup_state_step).
Defined.

Lemma load_step_ignores_flag_witness :
  store toy_setup_state !! 1%positive = Some toy_live_step ∧
  @load_step toy 1%positive tt
    (@Build_State toy
       (<[1%positive := set_is_initialized false toy_live_step]> (store toy_setup_state))
       (world toy_setup_state) (trace toy_setup_state))
  = @load_step toy 1%positive tt toy_setup_state.
Proof.
  split; [apply toy_setup_state_step|].
  exact (load_step_ignores_flag (E:=toy) 1 tt toy_live_step toy_setup_state false
           toy_setup_state_step).
Defined.
